(** * pybeepop: the [PyBeePop] wrapper class of [pybeepop/pybeepop.py]

    A shallow embedding of the class [PyBeePop], which drives a BeePop+
    shared library through a [tools.BeePopModel] object.  The wrapper is
    stateful and raises exceptions, so every method is a computation in a
    small state-and-exception monad over a [World]: the Python object
    [self] (with attributes that may be missing) and a trace of the
    observable events (prints, file-system probes, calls on the
    [BeePopModel], calls of the plotting helper).

    [tools.BeePopModel], [plots.plot_timeseries], [os.path], [platform],
    [pandas] and [json] are not part of this file of the repository; they
    are taken as parameters ([BeePopModel] class, [Env] record). *)

From Stdlib Require Import String List Bool ZArith.
Import ListNotations.
Open Scope string_scope.
Set Warnings "-register-all".

(** ** Python values and exceptions *)

(** The objects a caller can hand to [set_parameters] and [get_output]. *)
Inductive pyval : Type :=
| PyNone
| PyBool (b : bool)
| PyInt (z : Z)
| PyStr (s : string)
| PyList (items : list pyval)
| PyDict (entries : list (pyval * pyval)).

(** [x is None] *)
Definition is_none (v : pyval) : bool :=
  match v with PyNone => true | _ => false end.

(** [isinstance(x, dict)] *)
Definition isinstance_dict (v : pyval) : bool :=
  match v with PyDict _ => true | _ => false end.

(** [x == "json"] for a built-in value [x]: only the string itself. *)
Definition eq_str (v : pyval) (s : string) : bool :=
  match v with PyStr t => String.eqb t s | _ => false end.

Definition is_scalar (v : pyval) : bool :=
  match v with
  | PyBool _ | PyInt _ | PyStr _ => true
  | PyNone | PyList _ | PyDict _ => false
  end.

Definition is_str (v : pyval) : bool :=
  match v with PyStr _ => true | _ => false end.

(** A flat mapping from string keys to scalar values. *)
Definition flat_mapping (v : pyval) : bool :=
  match v with
  | PyDict kvs => forallb (fun kv => is_str (fst kv) && is_scalar (snd kv)) kvs
  | _ => false
  end.

Inductive exn_class : Type :=
| NotImplementedError
| FileNotFoundError
| TypeError
| RuntimeError
| IndexError
| AttributeError
| ValueError
| OSError.

Record exn : Type := Exn { exn_cls : exn_class; exn_msg : string }.

Inductive result (A : Type) : Type :=
| Ok (a : A)
| Raise (e : exn).
Arguments Ok {A} a.
Arguments Raise {A} e.

Definition is_ok {A} (r : result A) : bool :=
  match r with Ok _ => true | Raise _ => false end.

Definition raises {A} (r : result A) (c : exn_class) : bool :=
  match r with
  | Raise e => match exn_cls e, c with
               | NotImplementedError, NotImplementedError
               | FileNotFoundError, FileNotFoundError
               | TypeError, TypeError
               | RuntimeError, RuntimeError
               | IndexError, IndexError
               | AttributeError, AttributeError
               | ValueError, ValueError
               | OSError, OSError => true
               | _, _ => false
               end
  | Ok _ => false
  end.

(** ** Tables *)

(** A pandas [DataFrame], column by column in column order. *)
Definition DataFrame : Type := list (string * list pyval).

(** [df.columns] *)
Definition df_columns (df : DataFrame) : list string := map fst df.

(** [col in df.columns] *)
Definition in_columns (col : string) (df : DataFrame) : bool :=
  existsb (String.eqb col) (df_columns df).

(** ** The collaborators of the wrapper *)

(** The calls the wrapper makes on its [BeePopModel]. *)
Inductive native_call : Type :=
| CallNew (lib_file : string) (verbose : bool)
| CallSetParameters (parameters : pyval)
| CallGetParameters
| CallLoadWeather (path : option string)
| CallLoadInputFile (path : option string)
| CallLoadContamFile (path : option string)
| CallRunBeepop
| CallGetErrors
| CallGetInfo
| CallGetVersion
| CallCloseLibrary.

(** [tools.BeePopModel]: the object around the shared library.  [Lib] is
    its state; a method returns the state it leaves behind together with
    its value or the exception it raises. *)
Class BeePopModel (Lib : Type) : Type := {
  bp_new : string -> bool -> result Lib;
  bp_set_parameters : pyval -> Lib -> result pyval * Lib;
  bp_get_parameters : Lib -> result pyval * Lib;
  bp_load_weather : option string -> Lib -> result unit * Lib;
  bp_load_input_file : option string -> Lib -> result unit * Lib;
  bp_load_contam_file : option string -> Lib -> result unit * Lib;
  bp_run_beepop : Lib -> result DataFrame * Lib;
  bp_get_errors : Lib -> result string * Lib;
  bp_get_info : Lib -> result string * Lib;
  bp_get_version : Lib -> result string * Lib;
  bp_close_library : Lib -> result unit * Lib
}.

(** What the wrapper reads from the interpreter and the libraries it
    imports. *)
Record Env (Axes : Type) : Type := {
  env_parent : string;                     (* dirname(abspath(__file__)) *)
  env_system : string;                     (* platform.system() *)
  env_architecture : string;               (* platform.architecture()[0] *)
  env_path_join : string -> string -> string;   (* os.path.join *)
  env_isfile : string -> bool;             (* os.path.isfile *)
  env_repr : string -> string;             (* repr of a str *)
  env_to_dict_list : DataFrame -> pyval;   (* DataFrame.to_dict(orient="list") *)
  env_json_dumps : pyval -> result string; (* json.dumps *)
  env_plot_timeseries : DataFrame -> list string -> result Axes
}.
Arguments env_parent {Axes}.
Arguments env_system {Axes}.
Arguments env_architecture {Axes}.
Arguments env_path_join {Axes}.
Arguments env_isfile {Axes}.
Arguments env_repr {Axes}.
Arguments env_to_dict_list {Axes}.
Arguments env_json_dumps {Axes}.
Arguments env_plot_timeseries {Axes}.

(** Observable events, oldest first. *)
Inductive event : Type :=
| EvPrint (text : string)
| EvIsFile (path : string)
| EvNative (c : native_call)
| EvPlot (columns : list string).

(** ** The object *)

(** An attribute of a Python object: [None] when the object has no such
    attribute (never assigned, or removed by [del]). *)
Definition attr (A : Type) : Type := option A.

Record PyBeePop (Lib : Type) : Type := {
  parent : attr string;
  platform : attr string;
  verbose : attr bool;
  lib_file : attr string;
  beepop : attr Lib;
  parameters : attr pyval;
  parameter_file : attr (option string);
  weather_file : attr (option string);
  residue_file : attr (option string);
  output : attr (option DataFrame)
}.
Arguments parent {Lib}.
Arguments platform {Lib}.
Arguments verbose {Lib}.
Arguments lib_file {Lib}.
Arguments beepop {Lib}.
Arguments parameters {Lib}.
Arguments parameter_file {Lib}.
Arguments weather_file {Lib}.
Arguments residue_file {Lib}.
Arguments output {Lib}.

(** The object [__init__] receives: no attribute yet. *)
Definition fresh_object {Lib} : PyBeePop Lib :=
  {| parent := None; platform := None; verbose := None; lib_file := None;
     beepop := None; parameters := None; parameter_file := None;
     weather_file := None; residue_file := None; output := None |}.

Record World (Lib : Type) : Type := {
  self : PyBeePop Lib;
  trace : list event
}.
Arguments self {Lib}.
Arguments trace {Lib}.

(** Attribute assignment, one function per attribute of the class. *)
Section Setters.
Context {Lib : Type}.

Definition with_parent (v : attr string) (o : PyBeePop Lib) : PyBeePop Lib :=
  {| parent := v; platform := platform o; verbose := verbose o;
     lib_file := lib_file o; beepop := beepop o; parameters := parameters o;
     parameter_file := parameter_file o; weather_file := weather_file o;
     residue_file := residue_file o; output := output o |}.

Definition with_platform (v : attr string) (o : PyBeePop Lib) : PyBeePop Lib :=
  {| parent := parent o; platform := v; verbose := verbose o;
     lib_file := lib_file o; beepop := beepop o; parameters := parameters o;
     parameter_file := parameter_file o; weather_file := weather_file o;
     residue_file := residue_file o; output := output o |}.

Definition with_verbose (v : attr bool) (o : PyBeePop Lib) : PyBeePop Lib :=
  {| parent := parent o; platform := platform o; verbose := v;
     lib_file := lib_file o; beepop := beepop o; parameters := parameters o;
     parameter_file := parameter_file o; weather_file := weather_file o;
     residue_file := residue_file o; output := output o |}.

Definition with_lib_file (v : attr string) (o : PyBeePop Lib) : PyBeePop Lib :=
  {| parent := parent o; platform := platform o; verbose := verbose o;
     lib_file := v; beepop := beepop o; parameters := parameters o;
     parameter_file := parameter_file o; weather_file := weather_file o;
     residue_file := residue_file o; output := output o |}.

Definition with_beepop (v : attr Lib) (o : PyBeePop Lib) : PyBeePop Lib :=
  {| parent := parent o; platform := platform o; verbose := verbose o;
     lib_file := lib_file o; beepop := v; parameters := parameters o;
     parameter_file := parameter_file o; weather_file := weather_file o;
     residue_file := residue_file o; output := output o |}.

Definition with_parameters (v : attr pyval) (o : PyBeePop Lib) : PyBeePop Lib :=
  {| parent := parent o; platform := platform o; verbose := verbose o;
     lib_file := lib_file o; beepop := beepop o; parameters := v;
     parameter_file := parameter_file o; weather_file := weather_file o;
     residue_file := residue_file o; output := output o |}.

Definition with_parameter_file (v : attr (option string)) (o : PyBeePop Lib)
  : PyBeePop Lib :=
  {| parent := parent o; platform := platform o; verbose := verbose o;
     lib_file := lib_file o; beepop := beepop o; parameters := parameters o;
     parameter_file := v; weather_file := weather_file o;
     residue_file := residue_file o; output := output o |}.

Definition with_weather_file (v : attr (option string)) (o : PyBeePop Lib)
  : PyBeePop Lib :=
  {| parent := parent o; platform := platform o; verbose := verbose o;
     lib_file := lib_file o; beepop := beepop o; parameters := parameters o;
     parameter_file := parameter_file o; weather_file := v;
     residue_file := residue_file o; output := output o |}.

Definition with_residue_file (v : attr (option string)) (o : PyBeePop Lib)
  : PyBeePop Lib :=
  {| parent := parent o; platform := platform o; verbose := verbose o;
     lib_file := lib_file o; beepop := beepop o; parameters := parameters o;
     parameter_file := parameter_file o; weather_file := weather_file o;
     residue_file := v; output := output o |}.

Definition with_output (v : attr (option DataFrame)) (o : PyBeePop Lib)
  : PyBeePop Lib :=
  {| parent := parent o; platform := platform o; verbose := verbose o;
     lib_file := lib_file o; beepop := beepop o; parameters := parameters o;
     parameter_file := parameter_file o; weather_file := weather_file o;
     residue_file := residue_file o; output := v |}.
End Setters.

(** ** The monad of the methods

    A method runs on a world and leaves a world behind, also when it
    raises: what it assigned and emitted before the exception stays. *)
Module Py.
Section Monad.
Context {Lib : Type}.

Definition M (A : Type) : Type := World Lib -> result A * World Lib.

Definition ret {A} (a : A) : M A := fun w => (Ok a, w).

Definition raise {A} (c : exn_class) (msg : string) : M A :=
  fun w => (Raise (Exn c msg), w).

Definition bind {A B} (m : M A) (k : A -> M B) : M B :=
  fun w =>
    match m w with
    | (Ok a, w') => k a w'
    | (Raise e, w') => (Raise e, w')
    end.

(** A value or an exception computed outside the world. *)
Definition lift {A} (r : result A) : M A := fun w => (r, w).

Definition emit (e : event) : M unit :=
  fun w => (Ok tt, {| self := self w; trace := trace w ++ [e] |}).

(** [self.name], an [AttributeError] when the attribute is missing. *)
Definition getattr {A} (name : string) (proj : PyBeePop Lib -> attr A) : M A :=
  fun w =>
    match proj (self w) with
    | Some a => (Ok a, w)
    | None =>
        (Raise (Exn AttributeError
                  ("'PyBeePop' object has no attribute '" ++ name ++ "'")), w)
    end.

(** [self.name = v] through the attribute's update function. *)
Definition setattr (upd : PyBeePop Lib -> PyBeePop Lib) : M unit :=
  fun w => (Ok tt, {| self := upd (self w); trace := trace w |}).
End Monad.
End Py.

Notation "x <- m ;; k" := (Py.bind m (fun x => k))
  (at level 61, m at next level, right associativity).
Notation "m ;;; k" := (Py.bind m (fun _ => k))
  (at level 61, right associativity).

(** ** The methods of [PyBeePop] *)

(** The texts of the constructor, as the source has them. *)
Definition linux_note : string :=
"
                        Running in Linux mode. Trying manylinux/musllinux version.
                        If you encounter errors, you may need to compile your own version of BeePop+ from source and pass the path to your
                        .so file with the lib_file option. Currently, only 64-bit architecture is supported.
                        See the pybeepop README for instructions.
                        ".

Definition no_library_note : string :=
"
                BeePop+ shared object library does not exist or is not compatible with your operating system. 
                You may need to compile BeePop+ from source (see https://github.com/USEPA/pybeepop/blob/main/README.md for more info.)
                Currently, only 64-bit architecture is supported.
                ".

Definition win32_note : string :=
  "Windows x86 (32-bit) is not supported by BeePop+. Please run on an x64 platform.".

Definition other_os_note : string :=
  "BeePop+ only supports Windows and Linux.".

Definition no_weather_note : string :=
  "Weather must be set before running BeePop+!".

Definition no_parameters_note : string :=
  "No parameters have been set. Running with defualt settings.".

Definition no_results_note : string :=
  "There are no results to plot. Please run the model first.".

Definition not_a_dict_note : string :=
  "parameters must be a named dictionary of BeePop+ parameters".

(** The default of [plot_output]'s [columns]. *)
Definition default_columns : list string :=
  ["Colony Size"; "Adult Workers"; "Capped Worker Brood"; "Worker Larvae";
   "Worker Eggs"].

(** What [get_output] returns: the table itself or the JSON text. *)
Inductive output_value : Type :=
| AsTable (df : DataFrame)
| AsJson (text : string).

Section Wrapper.
Context {Lib : Type} `{BeePopModel Lib} {Axes : Type}.
Variable env : Env Axes.

Local Abbreviation M := (@Py.M Lib).

(** [print(text)] *)
Definition print (text : string) : M unit := Py.emit (EvPrint text).

(** [os.path.isfile(path)]; a path that is [None] is a [TypeError] of
    [os.stat]. *)
Definition isfile (path : option string) : M bool :=
  match path with
  | Some p => Py.emit (EvIsFile p) ;;; Py.ret (env_isfile env p)
  | None =>
      Py.raise TypeError
        "stat: path should be string, bytes, os.PathLike or integer, not NoneType"
  end.

(** ["...{}...".format(path)] *)
Definition format_path (before : string) (path : option string) (after : string)
  : string :=
  before ++ match path with Some p => p | None => "None" end ++ after.

(** A method call [lib.method(...)] on the [BeePopModel] object [lib]
    held in [self.beepop]: the object is updated in place. *)
Definition call_native {A} (c : native_call) (op : Lib -> result A * Lib)
  (lib : Lib) : M A :=
  Py.emit (EvNative c) ;;;
  let (r, lib') := op lib in
  Py.setattr (with_beepop (Some lib')) ;;;
  Py.lift r.

(** [BeePopModel(lib_file, verbose=verbose)] *)
Definition new_native (lib_file : string) (verbose : bool) : M Lib :=
  Py.emit (EvNative (CallNew lib_file verbose)) ;;;
  Py.lift (bp_new lib_file verbose).

(** [set_parameters(self, parameters)] *)
Definition set_parameters (params : pyval) : M unit :=
  if negb (is_none params) && negb (isinstance_dict params) then
    Py.raise TypeError not_a_dict_note
  else
    lib <- Py.getattr "beepop" beepop ;;
    r <- call_native (CallSetParameters params) (bp_set_parameters params) lib ;;
    Py.setattr (with_parameters (Some r)).

(** [get_parameters(self)] *)
Definition get_parameters : M pyval :=
  lib <- Py.getattr "beepop" beepop ;;
  call_native CallGetParameters bp_get_parameters lib.

(** [load_weather(self, weather_file)] *)
Definition load_weather (path : option string) : M unit :=
  ok <- isfile path ;;
  if negb ok then
    Py.raise FileNotFoundError
      (format_path "Weather file does not exist at path: " path "!")
  else
    Py.setattr (with_weather_file (Some path)) ;;;
    lib <- Py.getattr "beepop" beepop ;;
    arg <- Py.getattr "weather_file" weather_file ;;
    call_native (CallLoadWeather arg) (bp_load_weather arg) lib.

(** [load_parameter_file(self, parameter_file)] *)
Definition load_parameter_file (path : option string) : M unit :=
  ok <- isfile path ;;
  if negb ok then
    Py.raise FileNotFoundError
      (format_path "Paramter file does not exist at path: " path "!")
  else
    Py.setattr (with_parameter_file (Some path)) ;;;
    lib <- Py.getattr "beepop" beepop ;;
    arg <- Py.getattr "parameter_file" parameter_file ;;
    call_native (CallLoadInputFile arg) (bp_load_input_file arg) lib.

(** [load_residue_file(self, residue_file)] *)
Definition load_residue_file (path : option string) : M unit :=
  ok <- isfile path ;;
  if negb ok then
    Py.raise FileNotFoundError
      (format_path "Residue file does not exist at path: " path "!")
  else
    Py.setattr (with_residue_file (Some path)) ;;;
    lib <- Py.getattr "beepop" beepop ;;
    arg <- Py.getattr "residue_file" residue_file ;;
    call_native (CallLoadContamFile arg) (bp_load_contam_file arg) lib.

(** The library [__init__] picks when [lib_file] is [None]. *)
Definition detect_lib_file : M string :=
  plat <- Py.getattr "platform" platform ;;
  if plat =? "Windows" then
    if env_architecture env =? "32bit" then
      Py.raise NotImplementedError win32_note
    else
      par <- Py.getattr "parent" parent ;;
      Py.ret (env_path_join env par "lib/beepop_win64.dll")
  else if plat =? "Linux" then
    par <- Py.getattr "parent" parent ;;
    let lib_file := env_path_join env par "lib/beepop_linux.so" in
    v <- Py.getattr "verbose" verbose ;;
    (if v : bool then print linux_note else Py.ret tt) ;;;
    Py.ret lib_file
  else
    Py.raise NotImplementedError other_os_note.

(** [__init__], lines 65 to 75: the library file must exist; it is opened
    and the handle kept. *)
Definition init_library (lf : string) : M unit :=
  ok <- isfile (Some lf) ;;
  if negb ok then Py.raise FileNotFoundError no_library_note
  else
    Py.setattr (with_lib_file (Some lf)) ;;;
    lf' <- Py.getattr "lib_file" lib_file ;;
    v <- Py.getattr "verbose" verbose ;;
    lib <- new_native lf' v ;;
    Py.setattr (with_beepop (Some lib)) ;;;
    Py.setattr (with_parameters (Some PyNone)).

(** [__init__], lines 76 to 89: the files given to the constructor. *)
Definition init_files (parameter_file_arg weather_file_arg residue_file_arg
                         : option string) : M unit :=
  match parameter_file_arg with
  | Some _ =>
      arg <- Py.getattr "parameter_file" parameter_file ;;
      load_parameter_file arg
  | None => Py.setattr (with_parameter_file (Some None))
  end ;;;
  match weather_file_arg with
  | Some _ => load_weather weather_file_arg
  | None => Py.setattr (with_weather_file (Some None))
  end ;;;
  match residue_file_arg with
  | Some _ =>
      arg <- Py.getattr "residue_file" residue_file ;;
      load_residue_file arg
  | None => Py.setattr (with_residue_file (Some None))
  end ;;;
  Py.setattr (with_output (Some None)).

(** [__init__(self, lib_file, parameter_file, weather_file, residue_file,
    verbose)], on the fresh object. *)
Definition init (lib_file_arg parameter_file_arg weather_file_arg
                   residue_file_arg : option string) (verbose_arg : bool)
  : M unit :=
  Py.setattr (with_parent (Some (env_parent env))) ;;;
  Py.setattr (with_platform (Some (env_system env))) ;;;
  Py.setattr (with_verbose (Some verbose_arg)) ;;;
  lf <- match lib_file_arg with
        | None => detect_lib_file
        | Some p => Py.ret p
        end ;;
  init_library lf ;;;
  init_files parameter_file_arg weather_file_arg residue_file_arg.

(** [PyBeePop(...)]: [__init__] on a fresh object; the caller gets the
    object only when [__init__] returns. *)
Definition construct (lib_file_arg parameter_file_arg weather_file_arg
                        residue_file_arg : option string) (verbose_arg : bool)
  : result unit * World Lib :=
  init lib_file_arg parameter_file_arg weather_file_arg residue_file_arg
    verbose_arg {| self := fresh_object; trace := [] |}.

(** [run_model(self)] *)
Definition run_model : M (option DataFrame) :=
  pf <- Py.getattr "parameter_file" parameter_file ;;
  match pf with
  | None =>
      ps <- Py.getattr "parameters" parameters ;;
      if is_none ps then print no_parameters_note else Py.ret tt
  | Some _ => Py.ret tt
  end ;;;
  wf <- Py.getattr "weather_file" weather_file ;;
  match wf with
  | None => Py.raise RuntimeError no_weather_note
  | Some _ =>
      lib <- Py.getattr "beepop" beepop ;;
      df <- call_native CallRunBeepop bp_run_beepop lib ;;
      Py.setattr (with_output (Some (Some df))) ;;;
      Py.getattr "output" output
  end.

(** [get_output(self, format)] *)
Definition get_output (format : pyval) : M output_value :=
  out <- Py.getattr "output" output ;;
  match out with
  | None => Py.raise RuntimeError no_results_note
  | Some df =>
      if eq_str format "json" then
        text <- Py.lift (env_json_dumps env (env_to_dict_list env df)) ;;
        Py.ret (AsJson text)
      else
        Py.ret (AsTable df)
  end.

(** [repr] of a list of strings. *)
Definition repr_list (l : list string) : string :=
  "[" ++ String.concat ", " (map (env_repr env) l) ++ "]".

(** [[col not in self.output.columns for col in columns]] *)
Definition invalid_flags (df : DataFrame) (columns : list string) : list bool :=
  map (fun col => negb (in_columns col df)) columns.

(** [[i for (i, v) in zip(columns, invalid_cols) if v]] *)
Definition invalid_names (columns : list string) (invalid_cols : list bool)
  : list string :=
  map fst (filter (fun iv => snd iv) (combine columns invalid_cols)).

(** [plot_output(self, columns)] *)
Definition plot_output (columns : list string) : M Axes :=
  out <- Py.getattr "output" output ;;
  match out with
  | None => Py.raise RuntimeError no_results_note
  | Some df =>
      let invalid_cols := invalid_flags df columns in
      if existsb (fun v => v) invalid_cols then
        Py.raise IndexError
          ("The column name " ++ repr_list (invalid_names columns invalid_cols)
             ++ " is not a valid output column.")
      else
        Py.emit (EvPlot columns) ;;;
        Py.lift (env_plot_timeseries env df columns)
  end.

(** [get_error_log(self)] *)
Definition get_error_log : M string :=
  lib <- Py.getattr "beepop" beepop ;;
  call_native CallGetErrors bp_get_errors lib.

(** [get_info_log(self)] *)
Definition get_info_log : M string :=
  lib <- Py.getattr "beepop" beepop ;;
  call_native CallGetInfo bp_get_info lib.

(** [version(self)] *)
Definition version : M string :=
  lib <- Py.getattr "beepop" beepop ;;
  call_native CallGetVersion bp_get_version lib.

(** [exit(self)]: [del self.beepop] removes the attribute. *)
Definition exit : M unit :=
  lib <- Py.getattr "beepop" beepop ;;
  call_native CallCloseLibrary bp_close_library lib ;;;
  _ <- Py.getattr "beepop" beepop ;;
  Py.setattr (with_beepop None).
(** A call of one public method, for statements about all of them. *)
Inductive method : Type :=
| MSetParameters (params : pyval)
| MGetParameters
| MLoadWeather (path : option string)
| MLoadParameterFile (path : option string)
| MLoadResidueFile (path : option string)
| MRunModel
| MGetOutput (format : pyval)
| MPlotOutput (columns : list string)
| MGetErrorLog
| MGetInfoLog
| MVersion
| MExit.

(** What a method hands back. *)
Inductive value : Type :=
| VNone
| VPy (v : pyval)
| VTable (df : option DataFrame)
| VOutput (o : output_value)
| VText (s : string)
| VAxes (a : Axes).

Definition call (m : method) : M value :=
  match m with
  | MSetParameters params => set_parameters params ;;; Py.ret VNone
  | MGetParameters => v <- get_parameters ;; Py.ret (VPy v)
  | MLoadWeather path => load_weather path ;;; Py.ret VNone
  | MLoadParameterFile path => load_parameter_file path ;;; Py.ret VNone
  | MLoadResidueFile path => load_residue_file path ;;; Py.ret VNone
  | MRunModel => df <- run_model ;; Py.ret (VTable df)
  | MGetOutput format => o <- get_output format ;; Py.ret (VOutput o)
  | MPlotOutput columns => a <- plot_output columns ;; Py.ret (VAxes a)
  | MGetErrorLog => s <- get_error_log ;; Py.ret (VText s)
  | MGetInfoLog => s <- get_info_log ;; Py.ret (VText s)
  | MVersion => s <- version ;; Py.ret (VText s)
  | MExit => exit ;;; Py.ret VNone
  end.

(** The methods that go through [self.beepop]: all but the two readers of
    the stored run output. *)
Definition uses_handle (m : method) : bool :=
  match m with
  | MGetOutput _ | MPlotOutput _ => false
  | _ => true
  end.
End Wrapper.

(** ** States of a handle *)

Definition bound {A} (a : attr A) : bool :=
  match a with Some _ => true | None => false end.

(** Every attribute [__init__] assigns is there; [beepop] is left out, since
    [exit] removes it. *)
Definition constructed {Lib} (o : PyBeePop Lib) : bool :=
  bound (parent o) && bound (platform o) && bound (verbose o)
  && bound (lib_file o) && bound (parameters o) && bound (parameter_file o)
  && bound (weather_file o) && bound (residue_file o) && bound (output o).

(** Neither [set_parameters] nor [load_parameter_file] has left a value. *)
Definition no_parameters_set {Lib} (o : PyBeePop Lib) : bool :=
  match parameter_file o, parameters o with
  | Some None, Some PyNone => true
  | _, _ => false
  end.

(** ** A small library and environment to run the wrapper on

    [SampleLib] stands for a [BeePopModel] that remembers what it was given
    and simulates one day; it rejects the weather file [storm.csv] when it
    runs.  [sample_env] is a 64-bit Linux machine with four files. *)
Record SampleLib : Type := {
  sl_params : pyval;
  sl_weather : option string;
  sl_runs : nat
}.

Definition sample_table : DataFrame :=
  [("Date", [PyStr "06/01/2020"]); ("Colony Size", [PyInt 12000]);
   ("Adult Workers", [PyInt 9000])].

#[export] Instance sample_model : BeePopModel SampleLib := {
  bp_new := fun _ _ =>
    Ok {| sl_params := PyDict []; sl_weather := None; sl_runs := 0 |};
  bp_set_parameters := fun ps l =>
    match ps with
    | PyNone => (Ok (sl_params l), l)
    | _ => (Ok ps, {| sl_params := ps; sl_weather := sl_weather l;
                      sl_runs := sl_runs l |})
    end;
  bp_get_parameters := fun l => (Ok (sl_params l), l);
  bp_load_weather := fun p l =>
    (Ok tt, {| sl_params := sl_params l; sl_weather := p; sl_runs := sl_runs l |});
  bp_load_input_file := fun _ l => (Ok tt, l);
  bp_load_contam_file := fun _ l => (Ok tt, l);
  bp_run_beepop := fun l =>
    match sl_weather l with
    | Some "storm.csv" =>
        (Raise (Exn RuntimeError "BeePop+ could not read the weather"), l)
    | _ => (Ok sample_table,
            {| sl_params := sl_params l; sl_weather := sl_weather l;
               sl_runs := S (sl_runs l) |})
    end;
  bp_get_errors := fun l => (Ok "", l);
  bp_get_info := fun l => (Ok "", l);
  bp_get_version := fun l => (Ok "sample", l);
  bp_close_library := fun l => (Ok tt, l)
}.

Definition sample_files : list string :=
  ["/pkg/lib/beepop_linux.so"; "weather.csv"; "storm.csv"; "params.txt";
   "residue.csv"].

Definition sample_env : Env unit := {|
  env_parent := "/pkg";
  env_system := "Linux";
  env_architecture := "64bit";
  env_path_join := fun a b => a ++ "/" ++ b;
  env_isfile := fun p => existsb (String.eqb p) sample_files;
  env_repr := fun s => "'" ++ s ++ "'";
  env_to_dict_list := fun df =>
    PyDict (map (fun cv => (PyStr (fst cv), PyList (snd cv))) df);
  env_json_dumps := fun _ => Ok "{}";
  env_plot_timeseries := fun _ _ => Ok tt
|}.

(** The same machine in 32-bit mode. *)
Definition sample_env32 : Env unit := {|
  env_parent := env_parent sample_env;
  env_system := env_system sample_env;
  env_architecture := "32bit";
  env_path_join := env_path_join sample_env;
  env_isfile := env_isfile sample_env;
  env_repr := env_repr sample_env;
  env_to_dict_list := env_to_dict_list sample_env;
  env_json_dumps := env_json_dumps sample_env;
  env_plot_timeseries := env_plot_timeseries sample_env
|}.

(** A handle built on [sample_env] with the given weather file. *)
Definition sample_world (weather : option string) : World SampleLib :=
  snd (construct sample_env None None weather None false).

(** Run a sequence of calls, stopping at nothing: each call sees the world
    the previous one left. *)
Definition after {Lib} `{BeePopModel Lib} {Axes} (env : Env Axes)
  (ms : list method) (w : World Lib) : World Lib :=
  fold_left (fun w m => snd (call env m w)) ms w.


(** A second library for the sample machine: it refuses [storm.csv]
    already when it is loaded, and it cannot be closed. *)
Record PickyLib : Type := { pk_lib : SampleLib }.

Definition pk_lift {A} (op : SampleLib -> result A * SampleLib) (l : PickyLib)
  : result A * PickyLib :=
  let (r, l') := op (pk_lib l) in (r, {| pk_lib := l' |}).

#[export] Instance picky_model : BeePopModel PickyLib := {
  bp_new := fun lf v =>
    match bp_new (Lib := SampleLib) lf v with
    | Ok l => Ok {| pk_lib := l |}
    | Raise e => Raise e
    end;
  bp_set_parameters := fun ps => pk_lift (bp_set_parameters ps);
  bp_get_parameters := pk_lift bp_get_parameters;
  bp_load_weather := fun p l =>
    match p with
    | Some "storm.csv" =>
        (Raise (Exn ValueError "storm.csv is not a weather file"), l)
    | _ => pk_lift (bp_load_weather p) l
    end;
  bp_load_input_file := fun p => pk_lift (bp_load_input_file p);
  bp_load_contam_file := fun p => pk_lift (bp_load_contam_file p);
  bp_run_beepop := pk_lift bp_run_beepop;
  bp_get_errors := pk_lift bp_get_errors;
  bp_get_info := pk_lift bp_get_info;
  bp_get_version := pk_lift bp_get_version;
  bp_close_library := fun l => (Raise (Exn OSError "the library is busy"), l)
}.

(** A handle on the second library, no weather given. *)
Definition picky_world : World PickyLib :=
  snd (construct sample_env None None None None false).

(** The sample machine under another system and architecture. *)
Definition sample_env_on (system architecture : string) : Env unit := {|
  env_parent := env_parent sample_env;
  env_system := system;
  env_architecture := architecture;
  env_path_join := env_path_join sample_env;
  env_isfile := env_isfile sample_env;
  env_repr := env_repr sample_env;
  env_to_dict_list := env_to_dict_list sample_env;
  env_json_dumps := env_json_dumps sample_env;
  env_plot_timeseries := env_plot_timeseries sample_env
|}.

(** The precondition of [run_model]: a weather file has been recorded. *)
Definition weather_loaded {Lib} (o : PyBeePop Lib) : bool :=
  match weather_file o with
  | Some (Some _) => true
  | _ => false
  end.

(** The one method that assigns [self.output]. *)
Definition is_run (m : method) : bool :=
  match m with
  | MRunModel => true
  | _ => false
  end.

(** * Properties *)

(** Unfold the monad down to plain matches on worlds. *)
Ltac py_unfold :=
  unfold Py.bind, Py.ret, Py.raise, Py.lift, Py.emit, Py.getattr, Py.setattr
    in *.

Ltac py_simpl := py_unfold; cbn [fst snd self trace] in *.

(** ** Lists of column names *)

Lemma in_columns_In (col : string) (df : DataFrame) :
  in_columns col df = true <-> In col (df_columns df).
Proof.
  unfold in_columns. rewrite existsb_exists. split.
  - intros [x [Hx Heq]]. apply String.eqb_eq in Heq. now subst.
  - intros Hin. exists col. split; [assumption | apply String.eqb_refl].
Qed.

Lemma in_columns_not_In (col : string) (df : DataFrame) :
  in_columns col df = false <-> ~ In col (df_columns df).
Proof.
  rewrite <- in_columns_In. destruct (in_columns col df); split; intros;
    congruence.
Qed.

Lemma invalid_flags_any (df : DataFrame) (columns : list string) :
  existsb (fun v => v) (invalid_flags df columns)
  = existsb (fun col => negb (in_columns col df)) columns.
Proof.
  unfold invalid_flags. induction columns as [|c cs IH]; simpl.
  - reflexivity.
  - now rewrite IH.
Qed.

Lemma invalid_names_filter (df : DataFrame) (columns : list string) :
  invalid_names columns (invalid_flags df columns)
  = filter (fun col => negb (in_columns col df)) columns.
Proof.
  unfold invalid_names, invalid_flags.
  induction columns as [|c cs IH]; simpl.
  - reflexivity.
  - destruct (negb (in_columns c df)); simpl; now rewrite IH.
Qed.

(** ** Steps of a computation *)

Lemma bind_ok {Lib A B} (m : @Py.M Lib A) (k : A -> @Py.M Lib B)
  (w w' : World Lib) (a : A) :
  m w = (Ok a, w') -> Py.bind m k w = k a w'.
Proof. intros Hm. unfold Py.bind. now rewrite Hm. Qed.

Lemma bind_raise {Lib A B} (m : @Py.M Lib A) (k : A -> @Py.M Lib B)
  (w w' : World Lib) (e : exn) :
  m w = (Raise e, w') -> Py.bind m k w = (Raise e, w').
Proof. intros Hm. unfold Py.bind. now rewrite Hm. Qed.

(** A computation only appends to the trace. *)
Definition appends {Lib A} (m : @Py.M Lib A) : Prop :=
  forall w, exists evs, trace (snd (m w)) = (trace w ++ evs)%list.

Lemma appends_ret {Lib A} (a : A) : appends (@Py.ret Lib A a).
Proof. intros w. exists []. cbn. now rewrite app_nil_r. Qed.

Lemma appends_raise {Lib A} (c : exn_class) (msg : string) :
  appends (@Py.raise Lib A c msg).
Proof. intros w. exists []. cbn. now rewrite app_nil_r. Qed.

Lemma appends_lift {Lib A} (r : result A) : appends (@Py.lift Lib A r).
Proof. intros w. exists []. cbn. now rewrite app_nil_r. Qed.

Lemma appends_emit {Lib} (e : event) : appends (@Py.emit Lib e).
Proof. intros w. exists [e]. reflexivity. Qed.

Lemma appends_getattr {Lib A} (name : string) (proj : PyBeePop Lib -> attr A) :
  appends (Py.getattr name proj).
Proof.
  intros w. exists []. unfold Py.getattr.
  destruct (proj (self w)); cbn; now rewrite app_nil_r.
Qed.

Lemma appends_setattr {Lib} (upd : PyBeePop Lib -> PyBeePop Lib) :
  appends (Py.setattr upd).
Proof. intros w. exists []. cbn. now rewrite app_nil_r. Qed.

Lemma appends_bind {Lib A B} (m : @Py.M Lib A) (k : A -> @Py.M Lib B) :
  appends m -> (forall a, appends (k a)) -> appends (Py.bind m k).
Proof.
  intros Hm Hk w. unfold Py.bind.
  destruct (Hm w) as [evs1 H1]. destruct (m w) as [[a|e] w1]; cbn in *.
  - destruct (Hk a w1) as [evs2 H2]. exists (evs1 ++ evs2)%list.
    now rewrite H2, H1, app_assoc.
  - now exists evs1.
Qed.

(** What a computation has put on the trace stays in front of what its
    continuation adds. *)
Lemma bind_keeps_prefix {Lib A B} (m : @Py.M Lib A) (k : A -> @Py.M Lib B)
  (w : World Lib) (pre : list event) :
  (exists evs, trace (snd (m w)) = (pre ++ evs)%list) ->
  (forall a, appends (k a)) ->
  exists evs, trace (snd (Py.bind m k w)) = (pre ++ evs)%list.
Proof.
  intros [evs1 H1] Hk. unfold Py.bind.
  destruct (m w) as [[a|e] w1]; cbn in *.
  - destruct (Hk a w1) as [evs2 H2]. exists (evs1 ++ evs2)%list.
    now rewrite H2, H1, app_assoc.
  - now exists evs1.
Qed.

Create HintDb appends.

#[export] Hint Resolve appends_ret appends_raise appends_lift appends_emit
  appends_getattr appends_setattr : appends.

(** Walk through a computation, one construct at a time. *)
Ltac appends_walk :=
  repeat first
    [ solve [auto with appends]
    | apply appends_bind; [|intros]
    | match goal with
      | |- appends (if ?b then _ else _) => destruct b
      | |- appends (match ?x with _ => _ end) => destruct x
      | |- appends (let (_, _) := ?x in _) => destruct x
      end ].

(** ** Constructed handles *)

Lemma bound_inv {A} (a : attr A) : bound a = true -> exists v, a = Some v.
Proof. destruct a as [v|]; [now exists v | discriminate]. Qed.

Lemma constructed_inv {Lib} (o : PyBeePop Lib) :
  constructed o = true ->
  exists ps pf wf rf out,
    parameters o = Some ps /\ parameter_file o = Some pf
    /\ weather_file o = Some wf /\ residue_file o = Some rf
    /\ output o = Some out.
Proof.
  unfold constructed. intros Hc.
  repeat (apply andb_prop in Hc; destruct Hc as [Hc ?]).
  repeat match goal with
         | Hb : bound _ = true |- _ => apply bound_inv in Hb; destruct Hb
         end.
  eauto 10.
Qed.

Section Properties.
Context {Lib : Type} `{BeePopModel Lib} {Axes : Type}.
Variable env : Env Axes.

(** ** Loading files *)

(** C5: a load operation on a path that is not an existing file raises
    [FileNotFoundError] naming the path; the object, with every stored file
    path and the [BeePopModel] state, is left as it was, and the only event
    is the probe of the path: no call on the [BeePopModel]. *)
Theorem load_missing_file_raises (w : World Lib) (p : string)
  (Hmissing : env_isfile env p = false) :
  load_weather env (Some p) w
  = (Raise (Exn FileNotFoundError
              ("Weather file does not exist at path: " ++ p ++ "!")),
     {| self := self w; trace := trace w ++ [EvIsFile p] |})
  /\ load_parameter_file env (Some p) w
     = (Raise (Exn FileNotFoundError
                 ("Paramter file does not exist at path: " ++ p ++ "!")),
        {| self := self w; trace := trace w ++ [EvIsFile p] |})
  /\ load_residue_file env (Some p) w
     = (Raise (Exn FileNotFoundError
                 ("Residue file does not exist at path: " ++ p ++ "!")),
        {| self := self w; trace := trace w ++ [EvIsFile p] |}).
Proof.
  unfold load_weather, load_parameter_file, load_residue_file, isfile,
    format_path.
  py_simpl. rewrite Hmissing. cbn [negb]. repeat split.
Qed.

(** ** Running the model *)


(** Whenever [run_model] raises, for whatever reason, the stored output is
    the one it found. *)
Lemma run_model_raise_keeps_output (w : World Lib) (e : exn) :
  fst (run_model w) = Raise e ->
  output (self (snd (run_model w))) = output (self w).
Proof.
  unfold run_model, print, call_native. py_simpl.
  destruct (parameter_file (self w)) as [[pf|]|]; cbn;
    [ | destruct (parameters (self w)) as [[]|]; cbn | ];
    try reflexivity;
    (destruct (weather_file (self w)) as [[wf|]|]; cbn; try reflexivity;
     destruct (beepop (self w)) as [lib|]; cbn; try reflexivity;
     destruct (bp_run_beepop lib) as [[df|e'] lib']; cbn;
     [discriminate | reflexivity]).
Qed.

(** [get_output] depends on the stored output only. *)
Lemma get_output_reads_output (w w' : World Lib) (format : pyval) :
  output (self w') = output (self w) ->
  fst (get_output env format w') = fst (get_output env format w).
Proof.
  intros Heq. unfold get_output. py_simpl. rewrite Heq.
  destruct (output (self w)) as [[df|]|]; cbn; try reflexivity.
  destruct (eq_str format "json"); [|reflexivity].
  destruct (env_json_dumps env (env_to_dict_list env df)); reflexivity.
Qed.

(** C9: when the run entry point of the [BeePopModel] raises during
    [run_model], [run_model] raises that exception and the stored output
    keeps its value: [get_output] answers as it did before the call, a
    table from an earlier run or the no-results error. *)
Theorem run_model_failure_keeps_output (w : World Lib) (lib : Lib) (p : string)
  (e : exn)
  (Hc : constructed (self w) = true)
  (Hweather : weather_file (self w) = Some (Some p))
  (Hopen : beepop (self w) = Some lib)
  (Hfail : fst (bp_run_beepop lib) = Raise e) :
  fst (run_model w) = Raise e
  /\ output (self (snd (run_model w))) = output (self w)
  /\ forall format : pyval,
       fst (get_output env format (snd (run_model w)))
       = fst (get_output env format w).
Proof.
  assert (Hr : fst (run_model w) = Raise e).
  { destruct (constructed_inv _ Hc) as (ps & pf & wf & rf & out & Hps & Hpf & _).
    unfold run_model, print, call_native. py_simpl.
    rewrite Hpf.
    destruct pf as [pf|]; [|destruct ps];
      repeat (cbn; first [rewrite Hps | rewrite Hweather | rewrite Hopen]);
      destruct (bp_run_beepop lib) as [[df|e'] lib']; cbn in *; congruence. }
  pose proof (run_model_raise_keeps_output w e Hr) as Ho.
  repeat split; try assumption.
  intros format. now apply get_output_reads_output.
Qed.

(** ** Reading the output *)

(** C10: once a run has stored a table, [get_output] serialises it with
    [json.dumps] exactly when [format] is the string [json]; for every
    other [format] it returns the stored table itself and raises nothing. *)
Theorem get_output_json_only (w : World Lib) (df : DataFrame) (format : pyval)
  (Hran : output (self w) = Some (Some df)) :
  (format = PyStr "json" ->
   get_output env format w
   = (match env_json_dumps env (env_to_dict_list env df) with
      | Ok text => Ok (AsJson text)
      | Raise e => Raise e
      end, w))
  /\ (format <> PyStr "json" -> get_output env format w = (Ok (AsTable df), w)).
Proof.
  unfold get_output. py_simpl. rewrite Hran. split.
  - intros ->. cbn.
    destruct (env_json_dumps env (env_to_dict_list env df)); reflexivity.
  - intros Hne.
    assert (Hf : eq_str format "json" = false).
    { destruct format; try reflexivity. cbn.
      destruct (String.eqb_spec s "json"); congruence. }
    now rewrite Hf.
Qed.

(** C7: after a run, a column list with a name that is not a column of the
    output makes [plot_output] raise [IndexError]; the message carries the
    list of the requested names that are not columns, all of them and only
    them, in the order given; the plotting helper is not called and the
    object is left as it was. *)
Theorem plot_output_invalid_columns (w : World Lib) (df : DataFrame)
  (columns : list string) (bad : string)
  (Hran : output (self w) = Some (Some df))
  (Hin : In bad columns)
  (Hbad : ~ In bad (df_columns df)) :
  let named := filter (fun col => negb (in_columns col df)) columns in
  plot_output env columns w
  = (Raise (Exn IndexError
              ("The column name " ++ repr_list env named
                 ++ " is not a valid output column.")), w)
  /\ (forall col : string,
         In col named <-> In col columns /\ ~ In col (df_columns df)).
Proof.
  intros named. split.
  - unfold plot_output. py_simpl. rewrite Hran.
    rewrite invalid_flags_any, invalid_names_filter.
    assert (Hany : existsb (fun col => negb (in_columns col df)) columns = true).
    { apply existsb_exists. exists bad. split; [assumption|].
      apply negb_true_iff. now apply in_columns_not_In. }
    rewrite Hany. reflexivity.
  - intros col. unfold named. rewrite filter_In, negb_true_iff.
    now rewrite in_columns_not_In.
Qed.

(** ** Setting parameters *)

(** C6 (amended): an argument that is neither [None] nor a [dict] makes
    [set_parameters] raise [TypeError] with nothing done; [None] and every
    [dict], flat or not, pass the check and are handed to the
    [BeePopModel], whose outcome is the outcome of the call. *)
Theorem set_parameters_type_check (w : World Lib) (params : pyval) :
  (is_none params = false -> isinstance_dict params = false ->
   set_parameters params w = (Raise (Exn TypeError not_a_dict_note), w))
  /\ (forall lib : Lib,
         is_none params = true \/ isinstance_dict params = true ->
         beepop (self w) = Some lib ->
         trace (snd (set_parameters params w))
         = (trace w ++ [EvNative (CallSetParameters params)])%list
         /\ fst (set_parameters params w)
            = match fst (bp_set_parameters params lib) with
              | Ok _ => Ok tt
              | Raise e => Raise e
              end).
Proof.
  split.
  - intros Hn Hd. unfold set_parameters. rewrite Hn, Hd. reflexivity.
  - intros lib Hor Hlib. unfold set_parameters, call_native.
    assert (Hg : negb (is_none params) && negb (isinstance_dict params) = false).
    { destruct Hor as [-> | ->]; cbn; [reflexivity | apply andb_false_r]. }
    rewrite Hg. py_simpl. rewrite Hlib.
    destruct (bp_set_parameters params lib) as [[r|e] lib']; cbn;
      split; reflexivity.
Qed.

(** ** Construction *)

Lemma appends_isfile (path : option string) :
  appends (Lib := Lib) (isfile env path).
Proof. unfold isfile. appends_walk. Qed.

Lemma appends_call_native {A} (c : native_call) (op : Lib -> result A * Lib)
  (lib : Lib) : appends (call_native c op lib).
Proof. unfold call_native. appends_walk. Qed.

Lemma appends_load_weather (path : option string) :
  appends (load_weather env path).
Proof.
  unfold load_weather.
  pose proof appends_isfile. pose proof @appends_call_native.
  appends_walk.
Qed.

Lemma appends_load_parameter_file (path : option string) :
  appends (load_parameter_file env path).
Proof.
  unfold load_parameter_file.
  pose proof appends_isfile. pose proof @appends_call_native.
  appends_walk.
Qed.

Lemma appends_load_residue_file (path : option string) :
  appends (load_residue_file env path).
Proof.
  unfold load_residue_file.
  pose proof appends_isfile. pose proof @appends_call_native.
  appends_walk.
Qed.

Lemma appends_init_files (pf wf rf : option string) :
  appends (init_files env pf wf rf).
Proof.
  unfold init_files.
  pose proof appends_load_weather. pose proof appends_load_parameter_file.
  pose proof appends_load_residue_file.
  appends_walk.
Qed.

(** The first thing [init_library] does is to probe the library file. *)
Lemma init_library_probes (lf : string) (w : World Lib) :
  exists evs,
    trace (snd (init_library env lf w)) = (trace w ++ EvIsFile lf :: evs)%list.
Proof.
  unfold init_library.
  rewrite (bind_ok _ _ w {| self := self w; trace := trace w ++ [EvIsFile lf] |}
             (env_isfile env lf)) by reflexivity.
  assert (Hrest : appends
            (if negb (env_isfile env lf)
             then Py.raise FileNotFoundError no_library_note
             else
               Py.setattr (with_lib_file (Some lf)) ;;;
               lf' <- Py.getattr "lib_file" lib_file ;;
               v <- Py.getattr "verbose" verbose ;;
               lib <- new_native lf' v ;;
               Py.setattr (with_beepop (Some lib)) ;;;
               Py.setattr (with_parameters (Some PyNone)) : @Py.M Lib unit)).
  { unfold new_native. appends_walk. }
  destruct (Hrest {| self := self w; trace := trace w ++ [EvIsFile lf] |})
    as [evs Hevs].
  exists evs. rewrite Hevs. cbn [trace]. now rewrite <- app_assoc.
Qed.

(** On Linux the library is chosen without a look at the architecture. *)
Lemma detect_lib_file_linux (w : World Lib) (par : string) (v : bool) :
  platform (self w) = Some "Linux" ->
  parent (self w) = Some par ->
  verbose (self w) = Some v ->
  detect_lib_file env w
  = (Ok (env_path_join env par "lib/beepop_linux.so"),
     {| self := self w;
        trace := trace w ++ (if v then [EvPrint linux_note] else []) |}).
Proof.
  destruct w as [o tr]. cbn [self trace]. intros Hp Hpar Hv.
  unfold detect_lib_file, print. py_simpl. rewrite Hp. cbn.
  rewrite Hpar. cbn. rewrite Hv. destruct v; cbn; rewrite ?app_nil_r;
    reflexivity.
Qed.

(** On Windows the architecture decides. *)
Lemma detect_lib_file_windows (w : World Lib) (par : string) :
  platform (self w) = Some "Windows" ->
  parent (self w) = Some par ->
  detect_lib_file env w
  = if env_architecture env =? "32bit"
    then (Raise (Exn NotImplementedError win32_note), w)
    else (Ok (env_path_join env par "lib/beepop_win64.dll"), w).
Proof.
  intros Hp Hpar. unfold detect_lib_file. py_simpl. rewrite Hp. cbn.
  destruct (env_architecture env =? "32bit"); [reflexivity|].
  now rewrite Hpar.
Qed.

(** Any other system is refused. *)
Lemma detect_lib_file_other (w : World Lib) (sys : string) :
  platform (self w) = Some sys ->
  sys <> "Windows" -> sys <> "Linux" ->
  detect_lib_file env w = (Raise (Exn NotImplementedError other_os_note), w).
Proof.
  intros Hp Hw Hl. unfold detect_lib_file. py_simpl. rewrite Hp.
  apply String.eqb_neq in Hw, Hl. now rewrite Hw, Hl.
Qed.

(** C2, at the pair the code gets wrong: on Linux with a 32-bit
    interpreter and no [lib_file], the constructor raises no
    unsupported-platform error; it picks [lib/beepop_linux.so] and goes on
    to probe that file, and fails with [FileNotFoundError] only when the
    file is missing. *)
Theorem init_linux_32bit_not_refused (pf wf rf : option string) (v : bool)
  (Hsys : env_system env = "Linux")
  (Harch : env_architecture env = "32bit") :
  let path := env_path_join env (env_parent env) "lib/beepop_linux.so" in
  (exists evs,
      trace (snd (construct env None pf wf rf v))
      = ((if v then [EvPrint linux_note] else []) ++ EvIsFile path :: evs)%list)
  /\ (env_isfile env path = false ->
      fst (construct env None pf wf rf v)
      = Raise (Exn FileNotFoundError no_library_note)).
Proof.
  intros path. unfold construct, init.
  do 3 (erewrite bind_ok by reflexivity).
  erewrite bind_ok
    by (apply detect_lib_file_linux with (v := v); cbn; try rewrite Hsys;
        reflexivity).
  cbn [self trace app]. fold path. split.
  - set (w3 := {| self := _; trace := _ |}).
    destruct (bind_keeps_prefix (init_library env path)
                (fun _ => init_files env pf wf rf) w3
                ((if v then [EvPrint linux_note] else []) ++ [EvIsFile path]))
      as [evs Hevs].
    + destruct (init_library_probes path w3) as [evs Hevs].
      exists evs. rewrite Hevs. subst w3. cbn [trace].
      now rewrite <- app_assoc.
    + intros _. apply appends_init_files.
    + exists evs. rewrite Hevs. now rewrite <- app_assoc.
  - intros Hmissing. unfold init_library, isfile. py_simpl.
    rewrite Hmissing. reflexivity.
Qed.

(** Without a [lib_file], 32-bit Windows and every system other than
    Windows and Linux are refused before anything is probed or opened. *)
Lemma init_unsupported_refused (pf wf rf : option string) (v : bool) :
  (env_system env = "Windows" /\ env_architecture env = "32bit" ->
   fst (construct env None pf wf rf v)
   = Raise (Exn NotImplementedError win32_note)
   /\ trace (snd (construct env None pf wf rf v)) = [])
  /\ (env_system env <> "Windows" /\ env_system env <> "Linux" ->
      fst (construct env None pf wf rf v)
      = Raise (Exn NotImplementedError other_os_note)
      /\ trace (snd (construct env None pf wf rf v)) = []).
Proof.
  unfold construct, init. do 3 (erewrite bind_ok by reflexivity). split.
  - intros [Hsys Harch].
    erewrite bind_raise.
    2:{ erewrite detect_lib_file_windows with (par := env_parent env);
      cbn; try rewrite Hsys; try reflexivity.
      rewrite Harch. reflexivity. }
    split; reflexivity.
  - intros [Hw Hl].
    erewrite bind_raise
      by now apply detect_lib_file_other with (sys := env_system env).
    split; reflexivity.
Qed.

(** Without a [lib_file], Windows with any other architecture gets
    [lib/beepop_win64.dll], probed first. *)
Lemma init_windows_selects (pf wf rf : option string) (v : bool) :
  env_system env = "Windows" ->
  env_architecture env <> "32bit" ->
  exists evs,
    trace (snd (construct env None pf wf rf v))
    = EvIsFile (env_path_join env (env_parent env) "lib/beepop_win64.dll")
        :: evs.
Proof.
  intros Hsys Harch. unfold construct, init.
  do 3 (erewrite bind_ok by reflexivity).
  apply String.eqb_neq in Harch.
  erewrite bind_ok.
  2:{ erewrite detect_lib_file_windows with (par := env_parent env);
      cbn; try rewrite Hsys; try reflexivity.
      rewrite Harch. reflexivity. }
  set (w3 := {| self := _; trace := _ |}).
  set (path := env_path_join env (env_parent env) "lib/beepop_win64.dll").
  apply (bind_keeps_prefix (init_library env path)
           (fun _ => init_files env pf wf rf) w3 [EvIsFile path]).
  - destruct (init_library_probes path w3) as [evs Hevs].
    exists evs. rewrite Hevs. reflexivity.
  - intros _. apply appends_init_files.
Qed.

(** Evaluate a computation by cases on everything it branches on. *)
Ltac py_cases :=
  repeat (py_simpl; cbn;
          try match goal with
              | |- context [match ?x with _ => _ end] =>
                  lazymatch x with
                  | context [match _ with _ => _ end] => fail
                  | _ => destruct x eqn:?
                  end
              end).

Lemma init_library_keeps_files (lf : string) (w : World Lib) :
  parameter_file (self (snd (init_library env lf w))) = parameter_file (self w)
  /\ residue_file (self (snd (init_library env lf w))) = residue_file (self w).
Proof.
  unfold init_library, isfile, new_native. py_cases; split; reflexivity.
Qed.

Lemma init_files_parameter_file_unbound (p : string) (wf rf : option string)
  (w : World Lib) :
  parameter_file (self w) = None ->
  init_files env (Some p) wf rf w
  = (Raise (Exn AttributeError
              "'PyBeePop' object has no attribute 'parameter_file'"), w).
Proof.
  intros Hpf. unfold init_files. py_simpl. now rewrite Hpf.
Qed.

Lemma init_files_residue_file_unbound (pf wf : option string) (r : string)
  (w : World Lib) :
  residue_file (self w) = None ->
  is_ok (fst (init_files env pf wf (Some r) w)) = false.
Proof.
  intros Hrf. destruct w as [o tr]. cbn [self] in Hrf.
  unfold init_files, load_parameter_file, load_weather, isfile, call_native.
  py_cases; try reflexivity; cbn in *; congruence.
Qed.

Lemma detect_lib_file_keeps_self (w : World Lib) :
  self (snd (detect_lib_file env w)) = self w.
Proof. unfold detect_lib_file, print. py_cases; reflexivity. Qed.

Lemma is_ok_bind {A B} (m : @Py.M Lib A) (k : A -> @Py.M Lib B) (w : World Lib) :
  is_ok (fst (Py.bind m k w)) = true ->
  exists a, fst (m w) = Ok a /\ is_ok (fst (k a (snd (m w)))) = true.
Proof.
  unfold Py.bind. destruct (m w) as [[a|e] w']; cbn.
  - intros Hk. now exists a.
  - discriminate.
Qed.

(** The world in which [__init__] reaches the files it was given has no
    [parameter_file] and no [residue_file] attribute. *)
Lemma init_reaches_files_unbound (lf_arg pf wf rf : option string) (v : bool) :
  is_ok (fst (construct env lf_arg pf wf rf v)) = true ->
  exists w : World Lib,
    parameter_file (self w) = None /\ residue_file (self w) = None
    /\ is_ok (fst (init_files env pf wf rf w)) = true.
Proof.
  unfold construct, init. do 3 (erewrite bind_ok by reflexivity).
  set (w3 := {| self := _; trace := _ |}).
  intros Hok.
  apply is_ok_bind in Hok. destruct Hok as [lf [Hlf Hok]].
  apply is_ok_bind in Hok. destruct Hok as [[] [_ Hok]].
  eexists. split; [|split; [|exact Hok]].
  - rewrite (proj1 (init_library_keeps_files lf _)).
    destruct lf_arg; [reflexivity|].
    now rewrite detect_lib_file_keeps_self.
  - rewrite (proj2 (init_library_keeps_files lf _)).
    destruct lf_arg; [reflexivity|].
    now rewrite detect_lib_file_keeps_self.
Qed.

(** With an existing library that opens, the world [__init__] hands to
    [init_files]. *)
Lemma init_opens_library (lf : string) (pf wf rf : option string) (v : bool)
  (lib : Lib) :
  env_isfile env lf = true ->
  bp_new lf v = Ok lib ->
  construct env (Some lf) pf wf rf v
  = init_files env pf wf rf
      {| self := with_parameters (Some PyNone)
                   (with_beepop (Some lib)
                      (with_lib_file (Some lf)
                         (with_verbose (Some v)
                            (with_platform (Some (env_system env))
                               (with_parent (Some (env_parent env))
                                  fresh_object)))));
         trace := [EvIsFile lf; EvNative (CallNew lf v)] |}.
Proof.
  intros Hfile Hnew. unfold construct, init.
  do 4 (erewrite bind_ok by reflexivity).
  erewrite bind_ok; [reflexivity|].
  unfold init_library, isfile, new_native. py_simpl. rewrite Hfile. cbn.
  rewrite Hnew. reflexivity.
Qed.

(** C3, where the code fails it: a constructor call with a [parameter_file]
    or a [residue_file] never returns a handle.  With a library that exists
    and opens, [__init__] reads [self.parameter_file] (or
    [self.residue_file]) before anything assigned it and stops on the
    [AttributeError], the load operation not called: the trace ends at the
    opening of the library. *)
Theorem init_file_arguments_raise (lf : string) (pf wf rf : option string)
  (v : bool) (lib : Lib)
  (Hfile : env_isfile env lf = true)
  (Hnew : bp_new lf v = Ok lib) :
  (forall p : string,
      pf = Some p ->
      fst (construct env (Some lf) pf wf rf v)
      = Raise (Exn AttributeError
                 "'PyBeePop' object has no attribute 'parameter_file'")
      /\ trace (snd (construct env (Some lf) pf wf rf v))
         = [EvIsFile lf; EvNative (CallNew lf v)])
  /\ (forall r : string,
         pf = None -> wf = None -> rf = Some r ->
         fst (construct env (Some lf) pf wf rf v)
         = Raise (Exn AttributeError
                    "'PyBeePop' object has no attribute 'residue_file'")
         /\ trace (snd (construct env (Some lf) pf wf rf v))
            = [EvIsFile lf; EvNative (CallNew lf v)])
  /\ (forall lf_arg : option string,
         is_ok (fst (construct env lf_arg pf wf rf v)) = true ->
         pf = None /\ rf = None).
Proof.
  split; [|split].
  - intros p ->. rewrite (init_opens_library lf _ wf rf v lib Hfile Hnew).
    now rewrite init_files_parameter_file_unbound.
  - intros r -> -> ->.
    rewrite (init_opens_library lf _ _ _ v lib Hfile Hnew).
    split; reflexivity.
  - intros lf_arg Hok.
    apply init_reaches_files_unbound in Hok.
    destruct Hok as (w & Hpf & Hrf & Hok). split.
    + destruct pf as [p|]; [|reflexivity].
      rewrite init_files_parameter_file_unbound in Hok by assumption.
      discriminate.
    + destruct rf as [r|]; [|reflexivity].
      rewrite init_files_residue_file_unbound in Hok by assumption.
      discriminate.
Qed.

(** The weather file, in contrast, is loaded with the path given. *)
Lemma init_weather_file_loaded (lf p : string) (v : bool) (lib : Lib) :
  env_isfile env lf = true ->
  bp_new lf v = Ok lib ->
  env_isfile env p = true ->
  trace (snd (construct env (Some lf) None (Some p) None v))
  = [EvIsFile lf; EvNative (CallNew lf v); EvIsFile p;
     EvNative (CallLoadWeather (Some p))]
  /\ (is_ok (fst (construct env (Some lf) None (Some p) None v)) = true ->
      weather_file (self (snd (construct env (Some lf) None (Some p) None v)))
      = Some (Some p)).
Proof.
  intros Hfile Hnew Hp.
  rewrite (init_opens_library lf _ _ _ v lib Hfile Hnew).
  unfold init_files, load_weather, isfile, call_native. py_simpl.
  rewrite Hp. cbn.
  destruct (bp_load_weather (Some p) lib) as [[[]|e] lib']; cbn;
    split; try reflexivity; discriminate.
Qed.

(** ** After [exit] *)

Lemma exit_ok_closes (w : World Lib) :
  fst (exit w) = Ok tt -> beepop (self (snd (exit w))) = None.
Proof.
  unfold exit, call_native. py_cases; try reflexivity; discriminate.
Qed.

Lemma exit_keeps_output (w : World Lib) :
  output (self (snd (exit w))) = output (self w).
Proof. unfold exit, call_native. py_cases; reflexivity. Qed.

(** [plot_output] depends on the stored output only. *)
Lemma plot_output_reads_output (w w' : World Lib) (columns : list string) :
  output (self w') = output (self w) ->
  fst (plot_output env columns w') = fst (plot_output env columns w).
Proof.
  intros Heq. unfold plot_output. py_simpl. rewrite Heq.
  py_cases; reflexivity.
Qed.

(** No method gives a closed handle its [beepop] back. *)
Lemma closed_call_stays_closed (m : method) (w : World Lib) :
  beepop (self w) = None -> beepop (self (snd (call env m w))) = None.
Proof.
  destruct w as [o tr]. cbn [self]. intros Hclosed.
  destruct m; cbn [call];
    unfold set_parameters, get_parameters, load_weather, load_parameter_file,
      load_residue_file, run_model, get_output, plot_output, get_error_log,
      get_info_log, version, exit, isfile, print;
    py_cases; cbn in *; congruence.
Qed.

Lemma closed_after_stays_closed (ms : list method) (w : World Lib) :
  beepop (self w) = None -> beepop (self (after env ms w)) = None.
Proof.
  revert w. induction ms as [|m ms IH]; intros w Hclosed; cbn.
  - assumption.
  - apply IH. now apply closed_call_stays_closed.
Qed.

(** On a closed handle every method that goes through [self.beepop]
    raises. *)
Lemma closed_call_raises (m : method) (w : World Lib) :
  beepop (self w) = None ->
  uses_handle m = true ->
  is_ok (fst (call env m w)) = false.
Proof.
  destruct w as [o tr]. cbn [self]. intros Hclosed Huses.
  destruct m; try discriminate; cbn [call];
    unfold set_parameters, get_parameters, load_weather, load_parameter_file,
      load_residue_file, run_model, get_error_log, get_info_log, version,
      exit, isfile, print;
    py_cases; cbn in *; congruence.
Qed.

(** C4 (amended): once [exit] has returned, the handle is closed for good:
    after any further calls, every method that goes through the
    [BeePopModel] ([set_parameters], [get_parameters], the three loads,
    [run_model], the two logs, [version], [exit]) raises; [get_output] and
    [plot_output] do not look at the handle and answer as they did before
    [exit]. *)
Theorem exit_closes_handle (w : World Lib)
  (Hexit : fst (exit w) = Ok tt) :
  (forall (ms : list method) (m : method),
      uses_handle m = true ->
      is_ok (fst (call env m (after env ms (snd (exit w))))) = false)
  /\ (forall format : pyval,
         fst (get_output env format (snd (exit w)))
         = fst (get_output env format w))
  /\ (forall columns : list string,
         fst (plot_output env columns (snd (exit w)))
         = fst (plot_output env columns w)).
Proof.
  split; [|split].
  - intros ms m Huses. apply closed_call_raises; [|assumption].
    apply closed_after_stays_closed. now apply exit_ok_closes.
  - intros format. apply get_output_reads_output. apply exit_keeps_output.
  - intros columns. apply plot_output_reads_output. apply exit_keeps_output.
Qed.

(** ** Reading before and after a run *)

(** Before any run, [get_output] and [plot_output] raise the no-results
    error whatever they are asked for, and do nothing else. *)
Theorem no_output_before_run (w : World Lib) (format : pyval)
  (columns : list string)
  (Hnone : output (self w) = Some None) :
  get_output env format w = (Raise (Exn RuntimeError no_results_note), w)
  /\ plot_output env columns w = (Raise (Exn RuntimeError no_results_note), w).
Proof.
  unfold get_output, plot_output. py_simpl. rewrite Hnone. split; reflexivity.
Qed.

Lemma all_columns_valid (df : DataFrame) (columns : list string) :
  (forall col, In col columns -> In col (df_columns df)) ->
  existsb (fun col => negb (in_columns col df)) columns = false.
Proof.
  intros Hvalid. induction columns as [|c cs IH]; cbn.
  - reflexivity.
  - rewrite IH by (intros col Hcol; apply Hvalid; now right).
    assert (Hc : in_columns c df = true)
      by (apply in_columns_In, Hvalid; now left).
    now rewrite Hc.
Qed.

(** After a run, a request for columns of the output only (none at all
    included) goes to [plot_timeseries] once, with the stored table and the
    columns as given; its outcome is the outcome of [plot_output], and the
    object is left as it was. *)
Theorem plot_output_valid_columns (w : World Lib) (df : DataFrame)
  (columns : list string)
  (Hran : output (self w) = Some (Some df))
  (Hvalid : forall col, In col columns -> In col (df_columns df)) :
  plot_output env columns w
  = (env_plot_timeseries env df columns,
     {| self := self w; trace := trace w ++ [EvPlot columns] |}).
Proof.
  unfold plot_output. py_simpl. rewrite Hran.
  rewrite invalid_flags_any, (all_columns_valid df columns Hvalid).
  reflexivity.
Qed.

(** [get_output] changes nothing, in any state and for any [format];
    [plot_output] never changes the object. *)
Theorem output_readers_keep_object (w : World Lib) (format : pyval)
  (columns : list string) :
  snd (get_output env format w) = w
  /\ self (snd (plot_output env columns w)) = self w.
Proof.
  unfold get_output, plot_output. split; py_cases; reflexivity.
Qed.

(** ** A run that succeeds *)

(** On an open handle with weather loaded, when the run entry point returns
    a table: [run_model] returns it and stores it over whatever output was
    there; the run entry point is called once, after the warning exactly
    when no parameters and no parameter file are set; [get_output] then
    hands out that table. *)
Theorem run_model_stores_output (w : World Lib) (lib lib' : Lib) (p : string)
  (df : DataFrame)
  (Hc : constructed (self w) = true)
  (Hweather : weather_file (self w) = Some (Some p))
  (Hopen : beepop (self w) = Some lib)
  (Hrun : bp_run_beepop lib = (Ok df, lib')) :
  run_model w
  = (Ok (Some df),
     {| self := with_output (Some (Some df)) (with_beepop (Some lib') (self w));
        trace := trace w
                 ++ (if no_parameters_set (self w)
                     then [EvPrint no_parameters_note] else [])
                 ++ [EvNative CallRunBeepop] |})
  /\ (forall format : pyval,
         format <> PyStr "json" ->
         fst (get_output env format (snd (run_model w))) = Ok (AsTable df)).
Proof.
  assert (Hr : run_model w
               = (Ok (Some df),
                  {| self := with_output (Some (Some df))
                               (with_beepop (Some lib') (self w));
                     trace := trace w
                              ++ (if no_parameters_set (self w)
                                  then [EvPrint no_parameters_note] else [])
                              ++ [EvNative CallRunBeepop] |})).
  { destruct w as [o tr]. cbn [self trace] in *.
    destruct (constructed_inv o Hc) as (ps & pf & wf & rf & out & Hps & Hpf & _).
    unfold run_model, no_parameters_set, print, call_native. py_simpl.
    rewrite Hpf.
    destruct pf as [pf|]; [|destruct ps];
      repeat (cbn; first [rewrite Hps | rewrite Hweather | rewrite Hopen
                         | rewrite Hrun]);
      cbn; rewrite <- ?app_assoc; reflexivity. }
  split; [exact Hr|].
  intros format Hne. rewrite Hr. cbn [snd].
  assert (Hf : eq_str format "json" = false).
  { destruct format; try reflexivity. cbn.
    destruct (String.eqb_spec s "json"); congruence. }
  unfold get_output. py_simpl. cbn. now rewrite Hf.
Qed.

(** ** Loading a file that exists *)

Lemma load_weather_on_open_handle (w : World Lib) (lib : Lib) (p : string) :
  env_isfile env p = true ->
  beepop (self w) = Some lib ->
  load_weather env (Some p) w
  = (fst (bp_load_weather (Some p) lib),
     {| self := with_beepop (Some (snd (bp_load_weather (Some p) lib)))
                  (with_weather_file (Some (Some p)) (self w));
        trace := trace w ++ [EvIsFile p; EvNative (CallLoadWeather (Some p))] |}).
Proof.
  destruct w as [o tr]. cbn [self trace]. intros Hfile Hopen.
  unfold load_weather, isfile, call_native.
  py_simpl. rewrite Hfile. cbn. rewrite Hopen. cbn.
  destruct (bp_load_weather (Some p) lib) as [[[]|e1] l1];
    cbn; rewrite <- !app_assoc; reflexivity.
Qed.

(** On an open handle, each load operation on an existing file records the
    path, then makes one call on the [BeePopModel] with that path, and its
    outcome is the outcome of that call.  The path stays recorded when the
    call raises. *)
Theorem load_existing_file (w : World Lib) (lib : Lib) (p : string)
  (Hfile : env_isfile env p = true)
  (Hopen : beepop (self w) = Some lib) :
  load_weather env (Some p) w
  = (fst (bp_load_weather (Some p) lib),
     {| self := with_beepop (Some (snd (bp_load_weather (Some p) lib)))
                  (with_weather_file (Some (Some p)) (self w));
        trace := trace w ++ [EvIsFile p; EvNative (CallLoadWeather (Some p))] |})
  /\ load_parameter_file env (Some p) w
     = (fst (bp_load_input_file (Some p) lib),
        {| self := with_beepop (Some (snd (bp_load_input_file (Some p) lib)))
                     (with_parameter_file (Some (Some p)) (self w));
           trace := trace w
                    ++ [EvIsFile p; EvNative (CallLoadInputFile (Some p))] |})
  /\ load_residue_file env (Some p) w
     = (fst (bp_load_contam_file (Some p) lib),
        {| self := with_beepop (Some (snd (bp_load_contam_file (Some p) lib)))
                     (with_residue_file (Some (Some p)) (self w));
           trace := trace w
                    ++ [EvIsFile p; EvNative (CallLoadContamFile (Some p))] |}).
Proof.
  destruct w as [o tr]. cbn [self trace] in *.
  unfold load_weather, load_parameter_file, load_residue_file, isfile,
    call_native.
  py_simpl. rewrite Hfile. cbn. rewrite Hopen. cbn.
  destruct (bp_load_weather (Some p) lib) as [[[]|e1] l1];
    destruct (bp_load_input_file (Some p) lib) as [[[]|e2] l2];
    destruct (bp_load_contam_file (Some p) lib) as [[[]|e3] l3];
    cbn; rewrite <- !app_assoc; repeat split.
Qed.

(** A weather file the [BeePopModel] rejected still counts as loaded: the
    path was recorded before the call, so [run_model] passes its weather
    test and calls the run entry point. *)
Theorem rejected_weather_counts_as_loaded (w : World Lib) (lib : Lib)
  (p : string) (e : exn)
  (Hc : constructed (self w) = true)
  (Hfile : env_isfile env p = true)
  (Hopen : beepop (self w) = Some lib)
  (Hload : fst (bp_load_weather (Some p) lib) = Raise e) :
  let w' := snd (load_weather env (Some p) w) in
  fst (load_weather env (Some p) w) = Raise e
  /\ weather_file (self w') = Some (Some p)
  /\ fst (run_model w')
     = match fst (bp_run_beepop (snd (bp_load_weather (Some p) lib))) with
       | Ok df => Ok (Some df)
       | Raise e' => Raise e'
       end.
Proof.
  intros w'. subst w'.
  rewrite (load_weather_on_open_handle w lib p Hfile Hopen). cbn [fst snd self]. split; [exact Hload|]. split.
  - reflexivity.
  - destruct w as [o tr]. cbn [self trace] in *.
    destruct (constructed_inv o Hc) as (ps & pf & wf & rf & out & Hps & Hpf & _).
    unfold run_model, print, call_native. py_simpl. cbn. rewrite Hpf.
    destruct pf as [pf|]; [|destruct ps];
      cbn; rewrite ?Hps; cbn;
      destruct (bp_run_beepop (snd (bp_load_weather (Some p) lib)))
        as [[df|e'] lib'']; reflexivity.
Qed.

(** ** Parameters and the read accessors *)

(** On an open handle, for [None] or a [dict]: [self.parameters] becomes
    what the [BeePopModel] returned; when the [BeePopModel] raises,
    [self.parameters] keeps its value. *)
Theorem set_parameters_stores_result (w : World Lib) (lib : Lib)
  (params : pyval)
  (Hshape : is_none params = true \/ isinstance_dict params = true)
  (Hopen : beepop (self w) = Some lib) :
  parameters (self (snd (set_parameters params w)))
  = match fst (bp_set_parameters params lib) with
    | Ok r => Some r
    | Raise _ => parameters (self w)
    end.
Proof.
  unfold set_parameters, call_native.
  assert (Hg : negb (is_none params) && negb (isinstance_dict params) = false).
  { destruct Hshape as [-> | ->]; cbn; [reflexivity | apply andb_false_r]. }
  rewrite Hg. py_simpl. rewrite Hopen.
  destruct (bp_set_parameters params lib) as [[r|e] lib']; reflexivity.
Qed.

(** [get_parameters], [get_error_log], [get_info_log] and [version] need
    an open handle and nothing else (no weather, no run): each makes its one
    call on the [BeePopModel] and returns what that returns; of the object
    only the [BeePopModel] behind [self.beepop] can change. *)
Theorem read_accessors_forward (w : World Lib) (lib : Lib)
  (Hopen : beepop (self w) = Some lib) :
  get_parameters w
  = (fst (bp_get_parameters lib),
     {| self := with_beepop (Some (snd (bp_get_parameters lib))) (self w);
        trace := trace w ++ [EvNative CallGetParameters] |})
  /\ get_error_log w
     = (fst (bp_get_errors lib),
        {| self := with_beepop (Some (snd (bp_get_errors lib))) (self w);
           trace := trace w ++ [EvNative CallGetErrors] |})
  /\ get_info_log w
     = (fst (bp_get_info lib),
        {| self := with_beepop (Some (snd (bp_get_info lib))) (self w);
           trace := trace w ++ [EvNative CallGetInfo] |})
  /\ version w
     = (fst (bp_get_version lib),
        {| self := with_beepop (Some (snd (bp_get_version lib))) (self w);
           trace := trace w ++ [EvNative CallGetVersion] |}).
Proof.
  unfold get_parameters, get_error_log, get_info_log, version, call_native.
  py_simpl. rewrite Hopen.
  destruct (bp_get_parameters lib) as [[r1|e1] l1];
    destruct (bp_get_errors lib) as [[r2|e2] l2];
    destruct (bp_get_info lib) as [[r3|e3] l3];
    destruct (bp_get_version lib) as [[r4|e4] l4];
    repeat split.
Qed.

(** ** Closing *)

(** On an open handle [exit] calls [close_library] once.  When that
    returns, [self.beepop] is removed and every other attribute is left as
    it was; when it raises, [exit] raises the same exception and
    [del self.beepop] is not reached: the handle is still there. *)
Theorem exit_outcomes (w : World Lib) (lib : Lib)
  (Hopen : beepop (self w) = Some lib) :
  (fst (bp_close_library lib) = Ok tt ->
   exit w
   = (Ok tt,
      {| self := with_beepop None (self w);
         trace := trace w ++ [EvNative CallCloseLibrary] |}))
  /\ (forall e : exn,
         fst (bp_close_library lib) = Raise e ->
         exit w
         = (Raise e,
            {| self := with_beepop (Some (snd (bp_close_library lib))) (self w);
               trace := trace w ++ [EvNative CallCloseLibrary] |})).
Proof.
  destruct w as [o tr]. cbn [self trace] in *.
  unfold exit, call_native. py_simpl. rewrite Hopen.
  destruct (bp_close_library lib) as [[[]|e'] lib']; cbn; split;
    try discriminate; try reflexivity.
  intros e He. congruence.
Qed.

(** ** A library file given by the caller *)

(** With a [lib_file] that is not an existing file, construction raises
    [FileNotFoundError] on every system and architecture: the platform is
    not looked at, the path is probed once and no [BeePopModel] is made. *)
Theorem init_missing_lib_file (lf : string) (pf wf rf : option string)
  (v : bool)
  (Hmissing : env_isfile env lf = false) :
  fst (construct (Lib := Lib) env (Some lf) pf wf rf v)
  = Raise (Exn FileNotFoundError no_library_note)
  /\ trace (snd (construct (Lib := Lib) env (Some lf) pf wf rf v))
     = [EvIsFile lf]
  /\ beepop (self (snd (construct (Lib := Lib) env (Some lf) pf wf rf v)))
     = None.
Proof.
  unfold construct, init. do 4 (erewrite bind_ok by reflexivity).
  unfold init_library, isfile. py_simpl. rewrite Hmissing.
  repeat split.
Qed.

(** ** What the methods keep *)

Ltac unfold_methods :=
  unfold set_parameters, get_parameters, load_weather, load_parameter_file,
    load_residue_file, run_model, get_output, plot_output, get_error_log,
    get_info_log, version, exit, isfile, print, call_native.

Lemma call_keeps_constructed (m : method) (w : World Lib) :
  constructed (self w) = true ->
  constructed (self (snd (call env m w))) = true.
Proof.
  destruct w as [o tr]. cbn [self].
  destruct o as [par plat verb lf bp ps pf wf rf out].
  unfold constructed. cbn.
  destruct par, plat, verb, lf, ps, pf, wf, rf, out; try discriminate.
  intros _.
  destruct m; cbn [call]; unfold_methods; py_cases; reflexivity.
Qed.

Lemma call_keeps_output (m : method) (w : World Lib) :
  is_run m = false ->
  output (self (snd (call env m w))) = output (self w).
Proof.
  destruct w as [o tr]. cbn [self]. intros Hm.
  destruct m; try discriminate; cbn [call]; unfold_methods; py_cases;
    try reflexivity; cbn in *; congruence.
Qed.

Lemma call_keeps_weather_loaded (m : method) (w : World Lib) :
  weather_loaded (self w) = true ->
  weather_loaded (self (snd (call env m w))) = true.
Proof.
  destruct w as [o tr]. cbn [self]. unfold weather_loaded.
  destruct (weather_file o) as [[p|]|] eqn:Hwf; try discriminate. intros _.
  destruct m; cbn [call]; unfold_methods; py_cases;
    cbn in *; try rewrite Hwf; try reflexivity; congruence.
Qed.

(** No sequence of method calls takes away an attribute that [__init__]
    assigned, [beepop] apart. *)
Theorem calls_keep_constructed (ms : list method) (w : World Lib)
  (Hc : constructed (self w) = true) :
  constructed (self (after env ms w)) = true.
Proof.
  revert w Hc. induction ms as [|m ms IH]; intros w Hc; cbn.
  - assumption.
  - apply IH. now apply call_keeps_constructed.
Qed.

(** Only [run_model] touches the stored output: after any calls of the
    other methods, whether they returned or raised (new parameters, other
    files, even [exit]), [get_output] answers as before. *)
Theorem output_changes_only_by_run (ms : list method) (w : World Lib)
  (Hms : forallb (fun m => negb (is_run m)) ms = true) :
  output (self (after env ms w)) = output (self w)
  /\ forall format : pyval,
       fst (get_output env format (after env ms w))
       = fst (get_output env format w).
Proof.
  assert (Ho : output (self (after env ms w)) = output (self w)).
  { revert w. induction ms as [|m ms IH]; intros w.
    - reflexivity.
    - cbn [forallb] in Hms. apply andb_prop in Hms.
      destruct Hms as [Hm Hrest].
      change (after env (m :: ms) w) with (after env ms (snd (call env m w))).
      rewrite (IH Hrest). apply call_keeps_output.
      now apply negb_true_iff. }
  split; [exact Ho|]. intros format. now apply get_output_reads_output.
Qed.

(** Nothing unloads the weather: once a weather file is recorded, it is
    recorded after every sequence of calls. *)
Theorem weather_stays_loaded (ms : list method) (w : World Lib)
  (Hw : weather_loaded (self w) = true) :
  weather_loaded (self (after env ms w)) = true.
Proof.
  revert w Hw. induction ms as [|m ms IH]; intros w Hw; cbn.
  - assumption.
  - apply IH. now apply call_keeps_weather_loaded.
Qed.

(** ** The handle a constructor call returns *)

Lemma bind_ok_inv {A B} (m : @Py.M Lib A) (k : A -> @Py.M Lib B)
  (w : World Lib) :
  is_ok (fst (Py.bind m k w)) = true ->
  exists a, fst (m w) = Ok a /\ Py.bind m k w = k a (snd (m w)).
Proof.
  unfold Py.bind. destruct (m w) as [[a|e] w']; cbn.
  - intros _. now exists a.
  - discriminate.
Qed.

Lemma init_library_ok_state (lf : string) (w : World Lib) :
  is_ok (fst (init_library env lf w)) = true ->
  exists lib,
    self (snd (init_library env lf w))
    = with_parameters (Some PyNone)
        (with_beepop (Some lib) (with_lib_file (Some lf) (self w))).
Proof.
  destruct w as [o tr].
  unfold init_library, isfile, new_native. py_cases; try discriminate.
  intros _. eexists. reflexivity.
Qed.

Lemma init_files_ok_state (wf : option string) (w : World Lib) :
  is_ok (fst (init_files env None wf None w)) = true ->
  exists bp,
    self (snd (init_files env None wf None w))
    = with_output (Some None)
        (with_residue_file (Some None)
           (with_beepop bp
              (with_weather_file (Some wf)
                 (with_parameter_file (Some None) (self w)))))
    /\ bound bp = bound (beepop (self w)).
Proof.
  destruct w as [o tr]. destruct o as [par plat verb lf bp ps pf wf' rf out].
  unfold init_files, load_weather, isfile, call_native.
  py_cases; try discriminate; intros _; eexists; split; reflexivity.
Qed.

(** Whenever a constructor call returns a handle, however the library was
    chosen: no parameter or residue file was given; the handle is open with
    every attribute assigned; parameters, parameter file, residue file and
    output are [None]; the weather file is the one given (loaded) or
    [None]. *)
Theorem construct_success_state (lf_arg pf wf rf : option string) (v : bool)
  (Hok : is_ok (fst (construct (Lib := Lib) env lf_arg pf wf rf v)) = true) :
  let o := self (snd (construct (Lib := Lib) env lf_arg pf wf rf v)) in
  pf = None /\ rf = None
  /\ constructed o = true
  /\ bound (beepop o) = true
  /\ parameters o = Some PyNone
  /\ parameter_file o = Some None
  /\ weather_file o = Some wf
  /\ residue_file o = Some None
  /\ output o = Some None
  /\ verbose o = Some v.
Proof.
  assert (Hfiles : pf = None /\ rf = None).
  { destruct (init_reaches_files_unbound lf_arg pf wf rf v Hok)
      as (w & Hpf & Hrf & Hokf). split.
    - destruct pf as [p|]; [|reflexivity].
      rewrite init_files_parameter_file_unbound in Hokf by assumption.
      discriminate.
    - destruct rf as [r|]; [|reflexivity].
      rewrite init_files_residue_file_unbound in Hokf by assumption.
      discriminate. }
  destruct Hfiles as [-> ->]. cbv zeta.
  split; [reflexivity|]. split; [reflexivity|].
  revert Hok. unfold construct, init.
  do 3 (erewrite bind_ok by reflexivity).
  set (w3 := {| self := _; trace := _ |}).
  intros Hok.
  destruct (bind_ok_inv _ _ _ Hok) as (lf & Hlf & Heq1).
  rewrite Heq1 in Hok |- *. clear Heq1.
  assert (Hself : self (snd (match lf_arg with
                             | Some p => Py.ret p
                             | None => detect_lib_file env
                             end w3)) = self w3).
  { destruct lf_arg; [reflexivity | apply detect_lib_file_keeps_self]. }
  set (w4 := snd _) in *.
  destruct (bind_ok_inv _ _ _ Hok) as ([] & Hlib & Heq2).
  rewrite Heq2 in Hok |- *. clear Heq2.
  assert (Hlibok : is_ok (fst (init_library env lf w4)) = true)
    by now rewrite Hlib.
  destruct (init_library_ok_state lf w4 Hlibok) as [lib Hw5].
  destruct (init_files_ok_state wf _ Hok) as (bp & Hw6 & Hbp).
  rewrite Hw6. rewrite Hw5 in Hbp |- *. rewrite Hself.
  destruct bp as [l|]; [|discriminate Hbp].
  subst w3. repeat split.
Qed.

(** ** Loading on a closed handle *)

(** After [exit], a load operation on an existing file fails on the missing
    handle only after it has recorded the path: the call raises
    [AttributeError], nothing reaches a [BeePopModel], and the path
    attribute holds the new path. *)
Theorem load_on_closed_handle_records_path (w : World Lib) (p : string)
  (Hfile : env_isfile env p = true)
  (Hclosed : beepop (self w) = None) :
  let no_handle :=
    Exn AttributeError "'PyBeePop' object has no attribute 'beepop'" in
  load_weather env (Some p) w
  = (Raise no_handle,
     {| self := with_weather_file (Some (Some p)) (self w);
        trace := trace w ++ [EvIsFile p] |})
  /\ load_parameter_file env (Some p) w
     = (Raise no_handle,
        {| self := with_parameter_file (Some (Some p)) (self w);
           trace := trace w ++ [EvIsFile p] |})
  /\ load_residue_file env (Some p) w
     = (Raise no_handle,
        {| self := with_residue_file (Some (Some p)) (self w);
           trace := trace w ++ [EvIsFile p] |}).
Proof.
  destruct w as [o tr]. cbn [self trace] in *.
  unfold load_weather, load_parameter_file, load_residue_file, isfile.
  py_simpl. rewrite Hfile. cbn. rewrite Hclosed. repeat split.
Qed.

End Properties.

(** * The theorems on the sample machine *)

(** A handle that has run once, built with [weather.csv]. *)
Lemma sample_run_output :
  output (self (after sample_env [MRunModel] (sample_world (Some "weather.csv"))))
  = Some (Some sample_table).
Proof. reflexivity. Qed.



Lemma init_linux_32bit_not_refused_witness :
  (exists evs,
      trace (snd (construct (Lib := SampleLib) sample_env32 None None None None
                    false))
      = EvIsFile "/pkg/lib/beepop_linux.so" :: evs)
  /\ (env_isfile sample_env32 "/pkg/lib/beepop_linux.so" = false ->
      fst (construct (Lib := SampleLib) sample_env32 None None None None false)
      = Raise (Exn FileNotFoundError no_library_note)).
Proof.
  apply (init_linux_32bit_not_refused (Lib := SampleLib) sample_env32
           None None None false); reflexivity.
Defined.

Lemma init_file_arguments_raise_witness :
  fst (construct (Lib := SampleLib) sample_env (Some "/pkg/lib/beepop_linux.so")
         (Some "params.txt") (Some "weather.csv") None false)
  = Raise (Exn AttributeError
             "'PyBeePop' object has no attribute 'parameter_file'")
  /\ trace (snd (construct (Lib := SampleLib) sample_env
                   (Some "/pkg/lib/beepop_linux.so") (Some "params.txt")
                   (Some "weather.csv") None false))
     = [EvIsFile "/pkg/lib/beepop_linux.so";
        EvNative (CallNew "/pkg/lib/beepop_linux.so" false)].
Proof.
  refine (proj1 (init_file_arguments_raise (Lib := SampleLib) sample_env
                   "/pkg/lib/beepop_linux.so" (Some "params.txt")
                   (Some "weather.csv") None false
                   {| sl_params := PyDict []; sl_weather := None; sl_runs := 0 |}
                   _ _) "params.txt" _);
    reflexivity.
Defined.

Lemma exit_closes_handle_witness :
  is_ok (fst (call sample_env MRunModel
                (after sample_env [MLoadWeather (Some "weather.csv")]
                   (snd (exit (after sample_env [MRunModel]
                                 (sample_world (Some "weather.csv"))))))))
  = false
  /\ fst (get_output sample_env (PyStr "DataFrame")
            (snd (exit (after sample_env [MRunModel]
                          (sample_world (Some "weather.csv"))))))
     = fst (get_output sample_env (PyStr "DataFrame")
              (after sample_env [MRunModel] (sample_world (Some "weather.csv")))).
Proof.
  pose proof (exit_closes_handle sample_env
                (after sample_env [MRunModel] (sample_world (Some "weather.csv")))
                eq_refl) as (Hfail & Hget & _).
  split.
  - apply (Hfail [MLoadWeather (Some "weather.csv")] MRunModel). reflexivity.
  - apply Hget.
Defined.

(** C4 as stated fails: on the sample machine, a handle that has run and
    was then closed still hands out its table, and plots it. *)
Lemma exit_then_get_output_returns :
  let w := after sample_env [MRunModel; MExit] (sample_world (Some "weather.csv")) in
  fst (exit (after sample_env [MRunModel] (sample_world (Some "weather.csv"))))
  = Ok tt
  /\ beepop (self w) = None
  /\ fst (call sample_env (MGetOutput (PyStr "DataFrame")) w)
     = Ok (VOutput (AsTable sample_table))
  /\ fst (call sample_env (MPlotOutput ["Colony Size"]) w) = Ok (VAxes tt).
Proof.
  cbv zeta. repeat (split; [vm_compute; reflexivity|]). vm_compute. reflexivity.
Qed.

Lemma load_missing_file_raises_witness :
  load_weather sample_env (Some "nowhere.csv") (sample_world None)
  = (Raise (Exn FileNotFoundError
              "Weather file does not exist at path: nowhere.csv!"),
     {| self := self (sample_world None);
        trace := trace (sample_world None) ++ [EvIsFile "nowhere.csv"] |}).
Proof.
  apply (proj1 (load_missing_file_raises sample_env (sample_world None)
                  "nowhere.csv" eq_refl)).
Defined.

Lemma set_parameters_type_check_witness :
  set_parameters (PyList [PyStr "not"; PyStr "a"; PyStr "dict"])
    (sample_world None)
  = (Raise (Exn TypeError not_a_dict_note), sample_world None)
  /\ trace (snd (set_parameters (PyDict [(PyStr "ICWorkerAdults", PyInt 10000)])
                   (sample_world None)))
     = (trace (sample_world None)
          ++ [EvNative (CallSetParameters
                          (PyDict [(PyStr "ICWorkerAdults", PyInt 10000)]))])%list.
Proof.
  split.
  - apply (proj1 (set_parameters_type_check (sample_world None)
                    (PyList [PyStr "not"; PyStr "a"; PyStr "dict"])));
      reflexivity.
  - apply (proj2 (set_parameters_type_check (sample_world None)
                    (PyDict [(PyStr "ICWorkerAdults", PyInt 10000)]))
             {| sl_params := PyDict []; sl_weather := None; sl_runs := 0 |}).
    + right. reflexivity.
    + reflexivity.
Defined.

(** C6 as stated fails: [None] and a nested mapping are not flat mappings
    from strings to scalars, yet [set_parameters] raises no [TypeError] of
    its own on them and hands them to the [BeePopModel]. *)
Lemma set_parameters_forwards_none :
  let nested := PyDict [(PyInt 1, PyList [PyDict []])] in
  flat_mapping PyNone = false
  /\ flat_mapping nested = false
  /\ trace (snd (set_parameters PyNone (sample_world None)))
     = (trace (sample_world None) ++ [EvNative (CallSetParameters PyNone)])%list
  /\ raises (fst (set_parameters PyNone (sample_world None))) TypeError = false
  /\ trace (snd (set_parameters nested (sample_world None)))
     = (trace (sample_world None) ++ [EvNative (CallSetParameters nested)])%list
  /\ raises (fst (set_parameters nested (sample_world None))) TypeError = false.
Proof.
  cbv zeta. repeat (split; [vm_compute; reflexivity|]). vm_compute. reflexivity.
Qed.

Lemma plot_output_invalid_columns_witness :
  plot_output sample_env ["Colony Size"; "NotARealColumn"; "Date"; "Bees"]
    (after sample_env [MRunModel] (sample_world (Some "weather.csv")))
  = (Raise (Exn IndexError
              "The column name ['NotARealColumn', 'Bees'] is not a valid output column."),
     after sample_env [MRunModel] (sample_world (Some "weather.csv"))).
Proof.
  refine (proj1 (plot_output_invalid_columns sample_env
                   (after sample_env [MRunModel]
                      (sample_world (Some "weather.csv")))
                   sample_table
                   ["Colony Size"; "NotARealColumn"; "Date"; "Bees"]
                   "NotARealColumn" _ _ _)).
  - reflexivity.
  - simpl. right. left. reflexivity.
  - simpl. intros [Heq | [Heq | [Heq | []]]]; discriminate Heq.
Defined.

Lemma run_model_failure_keeps_output_witness :
  let w := after sample_env [MRunModel; MLoadWeather (Some "storm.csv")]
             (sample_world (Some "weather.csv")) in
  fst (run_model w)
  = Raise (Exn RuntimeError "BeePop+ could not read the weather")
  /\ output (self (snd (run_model w))) = output (self w)
  /\ forall format : pyval,
       fst (get_output sample_env format (snd (run_model w)))
       = fst (get_output sample_env format w).
Proof.
  intros w.
  refine (run_model_failure_keeps_output sample_env w
            {| sl_params := PyDict []; sl_weather := Some "storm.csv";
               sl_runs := 1 |}
            "storm.csv"
            (Exn RuntimeError "BeePop+ could not read the weather")
            _ _ _ _);
    reflexivity.
Defined.

Lemma get_output_json_only_witness :
  get_output sample_env (PyStr "JSON")
    (after sample_env [MRunModel] (sample_world (Some "weather.csv")))
  = (Ok (AsTable sample_table),
     after sample_env [MRunModel] (sample_world (Some "weather.csv")))
  /\ get_output sample_env (PyStr "json")
       (after sample_env [MRunModel] (sample_world (Some "weather.csv")))
     = (Ok (AsJson "{}"),
        after sample_env [MRunModel] (sample_world (Some "weather.csv"))).
Proof.
  split.
  - refine (proj2 (get_output_json_only sample_env
                     (after sample_env [MRunModel]
                        (sample_world (Some "weather.csv")))
                     sample_table (PyStr "JSON") _) _).
    + reflexivity.
    + discriminate.
  - refine (proj1 (get_output_json_only sample_env
                     (after sample_env [MRunModel]
                        (sample_world (Some "weather.csv")))
                     sample_table (PyStr "json") _) _);
      reflexivity.
Defined.

(** ** Further properties on the sample machine *)

Lemma no_output_before_run_witness :
  get_output sample_env (PyStr "json") (sample_world (Some "weather.csv"))
  = (Raise (Exn RuntimeError no_results_note),
     sample_world (Some "weather.csv"))
  /\ plot_output sample_env ["NotARealColumn"] (sample_world (Some "weather.csv"))
     = (Raise (Exn RuntimeError no_results_note),
        sample_world (Some "weather.csv")).
Proof.
  refine (no_output_before_run sample_env (sample_world (Some "weather.csv"))
            (PyStr "json") ["NotARealColumn"] _).
  reflexivity.
Defined.

Lemma plot_output_valid_columns_witness :
  plot_output sample_env ["Colony Size"; "Adult Workers"]
    (after sample_env [MRunModel] (sample_world (Some "weather.csv")))
  = (Ok tt,
     {| self := self (after sample_env [MRunModel]
                        (sample_world (Some "weather.csv")));
        trace := trace (after sample_env [MRunModel]
                          (sample_world (Some "weather.csv")))
                 ++ [EvPlot ["Colony Size"; "Adult Workers"]] |}).
Proof.
  refine (plot_output_valid_columns sample_env
            (after sample_env [MRunModel] (sample_world (Some "weather.csv")))
            sample_table ["Colony Size"; "Adult Workers"] _ _).
  - reflexivity.
  - simpl. intros col [<- | [<- | []]]; auto.
Defined.

Lemma run_model_stores_output_witness :
  fst (run_model (sample_world (Some "weather.csv"))) = Ok (Some sample_table)
  /\ fst (get_output sample_env (PyStr "DataFrame")
            (snd (run_model (sample_world (Some "weather.csv")))))
     = Ok (AsTable sample_table).
Proof.
  pose proof (run_model_stores_output sample_env
                (sample_world (Some "weather.csv"))
                {| sl_params := PyDict []; sl_weather := Some "weather.csv";
                   sl_runs := 0 |}
                {| sl_params := PyDict []; sl_weather := Some "weather.csv";
                   sl_runs := 1 |}
                "weather.csv" sample_table) as Hrun.
  destruct Hrun as [Hr Hget]; try reflexivity.
  split.
  - rewrite Hr. reflexivity.
  - apply Hget. discriminate.
Defined.

Lemma load_existing_file_witness :
  fst (load_residue_file sample_env (Some "residue.csv") (sample_world None))
  = Ok tt
  /\ residue_file
       (self (snd (load_residue_file sample_env (Some "residue.csv")
                     (sample_world None))))
     = Some (Some "residue.csv").
Proof.
  pose proof (load_existing_file sample_env (sample_world None)
                {| sl_params := PyDict []; sl_weather := None; sl_runs := 0 |}
                "residue.csv") as Hload.
  destruct Hload as (_ & _ & Hres); try reflexivity.
  rewrite Hres. split; reflexivity.
Defined.

Lemma rejected_weather_counts_as_loaded_witness :
  fst (load_weather sample_env (Some "storm.csv") picky_world)
  = Raise (Exn ValueError "storm.csv is not a weather file")
  /\ weather_file (self (snd (load_weather sample_env (Some "storm.csv")
                               picky_world)))
     = Some (Some "storm.csv")
  /\ fst (run_model (snd (load_weather sample_env (Some "storm.csv")
                            picky_world)))
     = Ok (Some sample_table).
Proof.
  refine (rejected_weather_counts_as_loaded sample_env picky_world
            {| pk_lib := {| sl_params := PyDict []; sl_weather := None;
                            sl_runs := 0 |} |}
            "storm.csv" (Exn ValueError "storm.csv is not a weather file")
            _ _ _ _);
    reflexivity.
Defined.

Lemma set_parameters_stores_result_witness :
  parameters
    (self (snd (set_parameters (PyDict [(PyStr "ICWorkerAdults", PyInt 10000)])
                  (sample_world None))))
  = Some (PyDict [(PyStr "ICWorkerAdults", PyInt 10000)]).
Proof.
  refine (set_parameters_stores_result (sample_world None)
            {| sl_params := PyDict []; sl_weather := None; sl_runs := 0 |}
            (PyDict [(PyStr "ICWorkerAdults", PyInt 10000)]) _ _).
  - right. reflexivity.
  - reflexivity.
Defined.

Lemma read_accessors_forward_witness :
  fst (version (sample_world None)) = Ok "sample"
  /\ fst (get_parameters (sample_world None)) = Ok (PyDict []).
Proof.
  pose proof (read_accessors_forward (sample_world None)
                {| sl_params := PyDict []; sl_weather := None; sl_runs := 0 |})
    as Hread.
  destruct Hread as (Hp & _ & _ & Hv); try reflexivity.
  rewrite Hv, Hp. split; reflexivity.
Defined.

Lemma exit_outcomes_witness :
  fst (exit (sample_world None)) = Ok tt
  /\ beepop (self (snd (exit (sample_world None)))) = None
  /\ fst (exit picky_world) = Raise (Exn OSError "the library is busy")
  /\ bound (beepop (self (snd (exit picky_world)))) = true.
Proof.
  pose proof (exit_outcomes (sample_world None)
                {| sl_params := PyDict []; sl_weather := None; sl_runs := 0 |})
    as Hs.
  destruct Hs as [Hs _]; try reflexivity.
  pose proof (exit_outcomes picky_world
                {| pk_lib := {| sl_params := PyDict []; sl_weather := None;
                                sl_runs := 0 |} |})
    as Hp.
  destruct Hp as [_ Hp]; try reflexivity.
  rewrite (Hs eq_refl).
  rewrite (Hp (Exn OSError "the library is busy") eq_refl).
  repeat split.
Defined.

Lemma init_missing_lib_file_witness :
  fst (construct (Lib := SampleLib) (sample_env_on "Darwin" "64bit")
         (Some "/opt/beepop.dylib") None None None false)
  = Raise (Exn FileNotFoundError no_library_note)
  /\ trace (snd (construct (Lib := SampleLib) (sample_env_on "Darwin" "64bit")
                   (Some "/opt/beepop.dylib") None None None false))
     = [EvIsFile "/opt/beepop.dylib"]
  /\ beepop (self (snd (construct (Lib := SampleLib)
                          (sample_env_on "Darwin" "64bit")
                          (Some "/opt/beepop.dylib") None None None false)))
     = None.
Proof.
  refine (init_missing_lib_file (Lib := SampleLib)
            (sample_env_on "Darwin" "64bit") "/opt/beepop.dylib"
            None None None false _).
  reflexivity.
Defined.

Lemma calls_keep_constructed_witness :
  constructed
    (self (after sample_env
             [MLoadWeather (Some "nowhere.csv"); MRunModel; MExit; MVersion]
             (sample_world (Some "weather.csv"))))
  = true.
Proof.
  refine (calls_keep_constructed sample_env
            [MLoadWeather (Some "nowhere.csv"); MRunModel; MExit; MVersion]
            (sample_world (Some "weather.csv")) _).
  reflexivity.
Defined.

Lemma output_changes_only_by_run_witness :
  let w := after sample_env [MRunModel] (sample_world (Some "weather.csv")) in
  let ms := [MSetParameters (PyDict [(PyStr "ICWorkerAdults", PyInt 5)]);
             MLoadWeather (Some "storm.csv"); MExit] in
  output (self (after sample_env ms w)) = output (self w)
  /\ forall format : pyval,
       fst (get_output sample_env format (after sample_env ms w))
       = fst (get_output sample_env format w).
Proof.
  intros w ms.
  refine (output_changes_only_by_run sample_env ms w _).
  reflexivity.
Defined.

Lemma weather_stays_loaded_witness :
  weather_loaded
    (self (after sample_env
             [MLoadWeather (Some "nowhere.csv"); MLoadWeather None; MRunModel;
              MExit]
             (sample_world (Some "weather.csv"))))
  = true.
Proof.
  refine (weather_stays_loaded sample_env
            [MLoadWeather (Some "nowhere.csv"); MLoadWeather None; MRunModel;
             MExit]
            (sample_world (Some "weather.csv")) _).
  reflexivity.
Defined.

Lemma construct_success_state_witness :
  let o := self (snd (construct (Lib := SampleLib) sample_env None None
                        (Some "weather.csv") None true)) in
  constructed o = true
  /\ bound (beepop o) = true
  /\ weather_file o = Some (Some "weather.csv")
  /\ output o = Some None.
Proof.
  intros o.
  pose proof (construct_success_state (Lib := SampleLib) sample_env None None
                (Some "weather.csv") None true) as Hc.
  destruct Hc as (_ & _ & Hcons & Hopen & _ & _ & Hw & _ & Hout & _);
    try reflexivity.
  repeat split; assumption.
Defined.

Lemma init_unsupported_refused_witness :
  (fst (construct (Lib := SampleLib) (sample_env_on "Windows" "32bit")
          None None None None false)
   = Raise (Exn NotImplementedError win32_note)
   /\ trace (snd (construct (Lib := SampleLib) (sample_env_on "Windows" "32bit")
                    None None None None false)) = [])
  /\ (fst (construct (Lib := SampleLib) (sample_env_on "Darwin" "64bit")
             None None None None false)
      = Raise (Exn NotImplementedError other_os_note)
      /\ trace (snd (construct (Lib := SampleLib)
                       (sample_env_on "Darwin" "64bit")
                       None None None None false)) = []).
Proof.
  split.
  - refine (proj1 (init_unsupported_refused (Lib := SampleLib)
                     (sample_env_on "Windows" "32bit") None None None false) _).
    split; reflexivity.
  - refine (proj2 (init_unsupported_refused (Lib := SampleLib)
                     (sample_env_on "Darwin" "64bit") None None None false) _).
    split; discriminate.
Defined.

Lemma init_windows_selects_witness :
  exists evs,
    trace (snd (construct (Lib := SampleLib) (sample_env_on "Windows" "")
                  None None None None false))
    = EvIsFile "/pkg/lib/beepop_win64.dll" :: evs.
Proof.
  refine (init_windows_selects (Lib := SampleLib) (sample_env_on "Windows" "")
            None None None false _ _).
  - reflexivity.
  - discriminate.
Defined.

Lemma load_on_closed_handle_records_path_witness :
  let w := after sample_env [MExit] (sample_world None) in
  fst (load_weather sample_env (Some "weather.csv") w)
  = Raise (Exn AttributeError "'PyBeePop' object has no attribute 'beepop'")
  /\ weather_file (self (snd (load_weather sample_env (Some "weather.csv") w)))
     = Some (Some "weather.csv").
Proof.
  intros w.
  pose proof (load_on_closed_handle_records_path sample_env w "weather.csv")
    as Hload.
  destruct Hload as (Hw & _ & _); try reflexivity.
  rewrite Hw. split; reflexivity.
Defined.
